(** * The IPMI exporter charm (src/charm.py): a shallow embedding

    The charm provisions, configures and tears down the [ipmi_exporter]
    daemon on one machine.  Its code is straight-line Python that mutates
    the host (files, users, groups, packages, the service unit) and raises
    exceptions.  The embedding follows the code:

    - Python strings are [string]s of 8-bit characters;
    - the file system is a finite map from paths to nodes;
    - effects are a state-and-exception monad [M] over a [world]; state
      changes made before an exception is raised are kept, as in Python;
    - everything the charm obtains from outside its own source (the host's
      command-line tools, the network, the archive decoder, the random
      names of temporary directories, the Jinja2 renderer and template, the
      [prometheus_ipmi_exporter] helper) is a field of an [environ] record,
      and the theorems hold for every such environment.  A concrete
      reference environment is used to run the code on examples. *)

From Stdlib Require Import Ascii String ZArith.
From stdpp Require Import gmap strings list fin_maps sorting.

Open Scope string_scope.
Open Scope list_scope.
Open Scope nat_scope.

(** ** Python strings *)

Module PyStr.

(** [c in "0123456789"], the character class [[0-9]]. *)
Definition is_digit (c : ascii) : bool :=
  let n := nat_of_ascii c in (48 <=? n)%nat && (n <=? 57)%nat.

Definition is_upper (c : ascii) : bool :=
  let n := nat_of_ascii c in (65 <=? n)%nat && (n <=? 90)%nat.

(** [str.lower] on the ASCII range. *)
Definition lower_char (c : ascii) : ascii :=
  if is_upper c then ascii_of_nat (nat_of_ascii c + 32) else c.

Fixpoint lower (s : string) : string :=
  match s with
  | EmptyString => EmptyString
  | String c s' => String (lower_char c) (lower s')
  end.

(** [needle in hay]. *)
Fixpoint contains (needle hay : string) : bool :=
  String.prefix needle hay ||
  match hay with
  | EmptyString => false
  | String _ hay' => contains needle hay'
  end.

(** [c in s] for one character. *)
Fixpoint has_char (c : ascii) (s : string) : bool :=
  match s with
  | EmptyString => false
  | String d s' => if ascii_dec d c then true else has_char c s'
  end.

(** [s.split(sep)] for a one-character separator: empty fields are kept
    and the result is never empty. *)
Fixpoint split (sep : ascii) (s : string) : list string :=
  match s with
  | EmptyString => [EmptyString]
  | String c s' =>
      if ascii_dec c sep then EmptyString :: split sep s'
      else match split sep s' with
           | w :: ws => String c w :: ws
           | [] => [String c EmptyString]
           end
  end.

Definition is_space (c : ascii) : bool :=
  let n := nat_of_ascii c in
  (n =? 32)%nat || ((9 <=? n)%nat && (n <=? 13)%nat).

(** [s.split()] / [shlex.split(s)] on text without quotes or escapes:
    fields are separated by runs of white space, empty fields dropped. *)
Fixpoint words_aux (cur : string) (s : string) : list string :=
  match s with
  | EmptyString => if decide (cur = EmptyString) then [] else [cur]
  | String c s' =>
      if is_space c
      then (if decide (cur = EmptyString) then [] else [cur]) ++ words_aux EmptyString s'
      else words_aux (cur +:+ String c EmptyString) s'
  end.

Definition words (s : string) : list string := words_aux EmptyString s.

(** [s.strip()]. *)
Fixpoint lstrip (s : string) : string :=
  match s with
  | String c s' => if is_space c then lstrip s' else s
  | EmptyString => EmptyString
  end.

Fixpoint rstrip (s : string) : string :=
  match s with
  | EmptyString => EmptyString
  | String c s' =>
      match rstrip s' with
      | EmptyString => if is_space c then EmptyString else String c EmptyString
      | r => String c r
      end
  end.

Definition strip (s : string) : string := rstrip (lstrip s).

End PyStr.

(** ** The fragment of [re] used by the charm

    Patterns are sequences of single-character atoms, each optionally
    under a greedy [+].  [re.search] scans start positions from the left
    and, at each, runs the backtracking matcher; a greedy [+] tries the
    longest repetition first. *)

Module Re.

Inductive atom :=
| Digit             (* [0-9] *)
| AnyChar           (* an unescaped dot: any character except a newline *)
| Char (c : ascii). (* a literal character, such as an escaped dot *)

Inductive item :=
| One (a : atom)
| Plus (a : atom).

Definition newline : ascii := ascii_of_nat 10.

Definition atom_ok (a : atom) (c : ascii) : bool :=
  match a with
  | Digit => PyStr.is_digit c
  | AnyChar => negb (Ascii.eqb c newline)
  | Char d => Ascii.eqb c d
  end.

(** [match_here p s]: the text matched by [p] at the start of [s]. *)
Fixpoint match_here (p : list item) (s : string) {struct p} : option string :=
  match p with
  | [] => Some EmptyString
  | One a :: p' =>
      match s with
      | String c s' =>
          if atom_ok a c then String c <$> match_here p' s' else None
      | EmptyString => None
      end
  | Plus a :: p' =>
      (fix plus (s : string) : option string :=
         match s with
         | String c s' =>
             if atom_ok a c then
               match plus s' with
               | Some m => Some (String c m)
               | None => String c <$> match_here p' s'
               end
             else None
         | EmptyString => None
         end) s
  end.

(** [re.search(p, s)], returning [group(0)] of the match object. *)
Fixpoint search (p : list item) (s : string) : option string :=
  match match_here p s with
  | Some m => Some m
  | None =>
      match s with
      | EmptyString => None
      | String _ s' => search p s'
      end
  end.

End Re.

(** The pattern of [_set_charm_version], [r'([0-9]+.[0-9]+.[0-9]+)']: the
    two dots are not escaped. *)
Definition version_pattern : list Re.item :=
  [Re.Plus Re.Digit; Re.One Re.AnyChar; Re.Plus Re.Digit; Re.One Re.AnyChar;
   Re.Plus Re.Digit].

(** A dotted triple [N.N.N] as the specification describes it: digits, a
    dot, digits, a dot, digits ([r'[0-9]+\.[0-9]+\.[0-9]+']). *)
Definition dotted_triple : list Re.item :=
  [Re.Plus Re.Digit; Re.One (Re.Char "."); Re.Plus Re.Digit; Re.One (Re.Char ".");
   Re.Plus Re.Digit].

(** ** The host and the charm's own state *)

(** A path is the list of its components below the root: [Path("/usr/bin")]
    is [["usr"; "bin"]]. *)
Abbreviation path := (list string).

(** [Path(s)] for a string: split at ['/'], empty components dropped. *)
Definition Path (s : string) : path :=
  filter (λ c, c ≠ EmptyString) (PyStr.split "/" s).

Definition parent (p : path) : path := removelast p.

Definition basename (p : path) : string := List.last p EmptyString.

Inductive node :=
| File (content : string)
| Dir.

#[global] Instance node_eq_dec : EqDecision node.
Proof. solve_decision. Defined.

Record host := Host {
  fs : gmap path node;
  owners : gmap path (string * string);
  users : gset string;
  groups : gset string;
  packages : gset string;
  unit_loaded : bool;
  unit_enabled : bool;
  unit_active : bool;
}.

Inductive status :=
| UnknownStatus
| MaintenanceStatus (msg : string)
| ActiveStatus (msg : string).

Inductive exn :=
| FileNotFoundError
| FileExistsError
| IsADirectoryError
| NotADirectoryError
| PermissionError
| LookupError
| AttributeError
| IndexError
| URLError
| ContentTooShortError
| ReadError
| TemplateNotFound
| TemplateSyntaxError
| UndefinedError
| TypeError
| HelperError.

#[global] Instance exn_eq_dec : EqDecision exn.
Proof. solve_decision. Defined.

#[global] Instance status_eq_dec : EqDecision status.
Proof. solve_decision. Defined.

(** What the charm does to the outside, in the order it does it.  An event
    is recorded when the operation is attempted. *)
Inductive event :=
| EvUrlretrieve (url : string) (dst : path)
| EvTarOpen (p : path)
| EvMkdtemp (p : path)
| EvExtractall (dst : path)
| EvCopy2 (src dst : path)
| EvCopyfile (src dst : path)
| EvCleanup (p : path)
| EvUnlink (p : path)
| EvRmtree (p : path)
| EvMkdir (p : path)
| EvChown (p : path) (user group : string)
| EvOpenW (p : path)
| EvWrite (p : path) (data : string)
| EvGetTemplate (p : path)
| EvExec (argv : list string)
| EvSetHostPort.

#[global] Instance event_eq_dec : EqDecision event.
Proof. solve_decision. Defined.

Record world := World {
  w_host : host;
  w_config : gmap string string;
  w_status : status;
  w_version : option string;
  w_trace : list event;
}.

Definition wfs (w : world) : gmap path node := fs (w_host w).

Definition set_host (h : host) (w : world) : world :=
  World h (w_config w) (w_status w) (w_version w) (w_trace w).

Definition set_fs (f : gmap path node) (h : host) : host :=
  Host f (owners h) (users h) (groups h) (packages h)
       (unit_loaded h) (unit_enabled h) (unit_active h).

Definition set_owners (o : gmap path (string * string)) (h : host) : host :=
  Host (fs h) o (users h) (groups h) (packages h)
       (unit_loaded h) (unit_enabled h) (unit_active h).

Definition upd_fs (f : gmap path node → gmap path node) (w : world) : world :=
  set_host (set_fs (f (wfs w)) (w_host w)) w.

Definition emit (e : event) (w : world) : world :=
  World (w_host w) (w_config w) (w_status w) (w_version w) (w_trace w ++ [e]).

Definition set_status (s : status) (w : world) : world :=
  World (w_host w) (w_config w) s (w_version w) (w_trace w).

Definition set_version (v : string) (w : world) : world :=
  World (w_host w) (w_config w) (w_status w) (Some v) (w_trace w).

(** The root directory always exists. *)
Definition lookup_node (f : gmap path node) (p : path) : option node :=
  match p with
  | [] => Some Dir
  | _ => f !! p
  end.

(** ** Results and the monad of the charm's code *)

Inductive result (A : Type) :=
| Ok (a : A)
| Raise (e : exn).
Arguments Ok {A} a.
Arguments Raise {A} e.

Definition M (A : Type) : Type := world → result A * world.

Definition ret {A} (a : A) : M A := λ w, (Ok a, w).

Definition raise {A} (e : exn) : M A := λ w, (Raise e, w).

Definition bind {A B} (m : M A) (k : A → M B) : M B :=
  λ w, match m w with
       | (Ok a, w') => k a w'
       | (Raise e, w') => (Raise e, w')
       end.

Declare Scope charm_scope.
Delimit Scope charm_scope with charm.
Notation "x <- m ;; k" := (bind m (λ x, k))
  (at level 100, m at next level, right associativity) : charm_scope.
Notation "m ;; k" := (bind m (λ _, k))
  (at level 100, right associativity) : charm_scope.
Open Scope charm_scope.

(** [try: body finally: fin], where [fin] itself does not raise in the
    uses below; if it does, its exception replaces the outcome. *)
Definition try_finally {A} (body : M A) (fin : M unit) : M A :=
  λ w, let '(r, w1) := body w in
       match fin w1 with
       | (Ok _, w2) => (r, w2)
       | (Raise e, w2) => (Raise e, w2)
       end.

Definition get {A} (f : world → A) : M A := λ w, (Ok (f w), w).

Definition modify (f : world → world) : M unit := λ w, (Ok tt, f w).

Definition log (e : event) : M unit := modify (emit e).

(** Lift a file-system operation that may fail; on failure the file system
    is unchanged. *)
Definition fs_op (f : gmap path node → result (gmap path node)) : M unit :=
  λ w, match f (wfs w) with
       | Ok f' => (Ok tt, upd_fs (λ _, f') w)
       | Raise e => (Raise e, w)
       end.

(** ** The environment: everything outside the charm's source *)

(** [subprocess.CompletedProcess]. *)
Record proc := Proc {
  returncode : Z;
  stdout : string;
  stderr : string;
}.

(** What [urllib.request.urlretrieve] meets: the request fails before any
    byte is stored, the whole body arrives, or the connection ends early
    (the truncated body is stored and [ContentTooShortError] raised). *)
Inductive dl_outcome :=
| DlError
| DlOk (body : string)
| DlShort (body : string).

(** An opened archive: its members, and whether it can be read to the end
    ([intact = false]: [extractall] raises after the listed members). *)
Record TarFile := Tar {
  members : list (path * string);
  intact : bool;
}.

(** A compiled template: from the variables to the text, or to the
    exception raised while the text is produced. *)
Definition template : Type := gmap string (option string) → result string.

Record environ := Environ {
  (** a host tool, run to completion: its result and its effect on the host *)
  exec : list string → host → proc * host;
  (** the network *)
  urlopen : string → dl_outcome;
  (** [tarfile.open] on the bytes of a file; [None]: not an archive *)
  untar : string → option TarFile;
  (** the random suffixes [tempfile] tries, in order *)
  tmp_names : list string;
  (** [os.path.dirname(os.path.abspath(__file__))] *)
  charm_dir : path;
  (** Jinja2: the source of a template is compiled when the template is
      loaded ([TemplateSyntaxError] for a source that is not a template) *)
  jinja_compile : string → result template;
  (** [Prometheus.set_host_port] of the [prometheus_ipmi_exporter] module *)
  set_host_port : M unit;
}.

(** Jinja2 as a whole: the source is compiled, the compiled template is
    rendered with the variables. *)
Definition jinja_render (E : environ) (src : string)
    (context : gmap string (option string)) : result string :=
  match jinja_compile E src with
  | Ok t => t context
  | Raise e => Raise e
  end.

(** ** File-system primitives ([pathlib], [shutil], [open]) *)

Definition py_unlink (p : path) (f : gmap path node) : result (gmap path node) :=
  match lookup_node f p with
  | None => Raise FileNotFoundError
  | Some Dir => Raise IsADirectoryError
  | Some (File _) => Ok (delete p f)
  end.

Definition remove_tree (p : path) (f : gmap path node) : gmap path node :=
  filter (λ kv, ¬ (p `prefix_of` kv.1)) f.

Definition py_rmtree (p : path) (f : gmap path node) : result (gmap path node) :=
  match lookup_node f p with
  | None => Raise FileNotFoundError
  | Some (File _) => Raise NotADirectoryError
  | Some Dir => Ok (remove_tree p f)
  end.

Definition py_mkdir (p : path) (f : gmap path node) : result (gmap path node) :=
  match lookup_node f p with
  | Some _ => Raise FileExistsError
  | None =>
      match lookup_node f (parent p) with
      | Some Dir => Ok (<[p := Dir]> f)
      | Some (File _) => Raise NotADirectoryError
      | None => Raise FileNotFoundError
      end
  end.

(** [Path.mkdir(parents=True)]: missing ancestors are created, existing
    directories among them are accepted, the last component must be new. *)
Fixpoint py_mkdir_parents_from (base rest : path) (f : gmap path node)
  : result (gmap path node) :=
  match rest with
  | [] => Raise FileExistsError
  | c :: rest' =>
      let q := base ++ [c] in
      match lookup_node f q, rest' with
      | None, [] => Ok (<[q := Dir]> f)
      | None, _ => py_mkdir_parents_from q rest' (<[q := Dir]> f)
      | Some Dir, [] => Raise FileExistsError
      | Some Dir, _ => py_mkdir_parents_from q rest' f
      | Some (File _), [] => Raise FileExistsError
      | Some (File _), _ => Raise NotADirectoryError
      end
  end.

Definition py_mkdir_parents (p : path) : gmap path node → result (gmap path node) :=
  py_mkdir_parents_from [] p.

(** [open(p, "w")]: the file is created, or truncated if it exists. *)
Definition py_create (p : path) (data : string) (f : gmap path node)
  : result (gmap path node) :=
  match lookup_node f p with
  | Some Dir => Raise IsADirectoryError
  | _ =>
      match lookup_node f (parent p) with
      | Some Dir => Ok (<[p := File data]> f)
      | Some (File _) => Raise NotADirectoryError
      | None => Raise FileNotFoundError
      end
  end.

(** Writing to an open file appends to what it holds. *)
Definition py_append (p : path) (data : string) (f : gmap path node) : gmap path node :=
  match f !! p with
  | Some (File c) => <[p := File (c +:+ data)]> f
  | _ => f
  end.

Definition path_exists (p : path) : M bool :=
  get (λ w, bool_decide (is_Some (lookup_node (wfs w) p))).

Definition is_dir (p : path) : M bool :=
  get (λ w, bool_decide (lookup_node (wfs w) p = Some Dir)).

Definition unlink (p : path) : M unit :=
  log (EvUnlink p) ;; fs_op (py_unlink p).

Definition rmtree (p : path) : M unit :=
  log (EvRmtree p) ;; fs_op (py_rmtree p).

Definition mkdir (p : path) : M unit :=
  log (EvMkdir p) ;; fs_op (py_mkdir p).

Definition mkdir_parents (p : path) : M unit :=
  log (EvMkdir p) ;; fs_op (py_mkdir_parents p).

Definition open_w (p : path) : M unit :=
  log (EvOpenW p) ;; fs_op (py_create p EmptyString).

Definition file_write (p : path) (data : string) : M unit :=
  log (EvWrite p data) ;; modify (upd_fs (py_append p data)).

(** [Path.write_text]: [with self.open("w") as f: f.write(data)]. *)
Definition write_text (p : path) (data : string) : M unit :=
  open_w p ;; file_write p data.

Definition read_file (p : path) : M string :=
  n <- get (λ w, lookup_node (wfs w) p) ;;
  match n with
  | None => raise FileNotFoundError
  | Some Dir => raise IsADirectoryError
  | Some (File c) => ret c
  end.

(** [shutil.copyfile]: the source is opened first, then the destination is
    created or truncated and filled. *)
Definition copyfile (src dst : path) : M unit :=
  log (EvCopyfile src dst) ;;
  c <- read_file src ;;
  fs_op (py_create dst c).

(** [shutil.copy2]: a destination that is a directory receives the file
    under the source's name. *)
Definition copy2 (src dst : path) : M unit :=
  log (EvCopy2 src dst) ;;
  d <- is_dir dst ;;
  let dst' := if d : bool then dst ++ [basename src] else dst in
  c <- read_file src ;;
  fs_op (py_create dst' c).

(** [shutil.chown(path, user=.., group=..)]: both names are resolved, then
    the owner of the path is changed. *)
Definition chown (p : path) (user group : string) : M unit :=
  log (EvChown p user group) ;;
  h <- get w_host ;;
  if negb (bool_decide (user ∈ users h)) then raise LookupError
  else if negb (bool_decide (group ∈ groups h)) then raise LookupError
  else match lookup_node (fs h) p with
       | None => raise FileNotFoundError
       | Some _ => modify (λ w, set_host (set_owners (<[p := (user, group)]> (owners h)) (w_host w)) w)
       end.

(** ** The fixed paths of the charm *)

Definition archive_path : path := Path "/tmp/ipmi-exporter.tar.gz".
Definition bin_path : path := Path "/usr/bin/ipmi_exporter".
Definition unit_path : path := Path "/etc/systemd/system/ipmi_exporter.service".
Definition sysconfig_dir : path := Path "/etc/sysconfig/".
Definition sysconfig_path : path := sysconfig_dir ++ ["ipmi_exporter"].
Definition config_dir : path := Path "/etc/ipmi_exporter/".
Definition config_path : path := Path "/etc/ipmi_exporter/ipmi_exporter.yaml".
Definition varlib : path := Path "/var/lib/ipmi_exporter".
Definition textfile_dir : path := varlib ++ ["textfile_collector"].
Definition sudoers : path := Path "/etc/sudoers.d/ipmi_exporter".
Definition tmp_root : path := Path "/tmp".

(** The text written to the sudoers file: the triple-quoted literal of
    the source, in which a backslash at the end of a line joins it with
    the next one.  The last source line is not joined, so the text ends
    with a newline and the indentation of the closing quotes. *)
Definition sudoers_indent : string := "                              ".
Definition sudoers_rule : string :=
  "ipmi_exporter ALL = NOPASSWD: /usr/sbin/ipmimonitoring," +:+
  sudoers_indent +:+ "/usr/sbin/ipmi-sensors," +:+
  sudoers_indent +:+ "/usr/sbin/ipmi-dcmi," +:+
  sudoers_indent +:+ "/usr/sbin/ipmi-raw," +:+
  sudoers_indent +:+ "/usr/sbin/bmc-info," +:+
  sudoers_indent +:+ "/usr/sbin/ipmi-chassis," +:+
  sudoers_indent +:+ "/usr/sbin/ipmi-sel                " +:+
  String Re.newline "                ".

(** [str(x)] for a value that is a string or [None]. *)
Definition py_str (x : option string) : string := default "None" x.

(** ** The charm *)

Section Charm.

Context (E : environ).

(** *** Processes, network, archives, temporary directories *)

(** A program named by an absolute path must be a file on the host.
    The tools found through [PATH] ([systemctl], [dpkg], [apt-get] and the
    account tools) are taken to be installed: this is a standing
    assumption on the host, and where a statement below says that a tool
    is installed it refers to it.  On a host without the tool
    [subprocess] raises [FileNotFoundError] at that call. *)
Definition check_program (prog : string) : M unit :=
  if String.prefix "/" prog then
    n <- get (λ w, lookup_node (wfs w) (Path prog)) ;;
    match n with
    | None => raise FileNotFoundError
    | Some Dir => raise PermissionError
    | Some (File _) => ret tt
    end
  else ret tt.

(** [subprocess.run(argv, capture_output=True)] *)
Definition subprocess_run (argv : list string) : M proc :=
  log (EvExec argv) ;;
  check_program (List.hd EmptyString argv) ;;
  λ w, let '(p, h) := exec E argv (w_host w) in (Ok p, set_host h w).

(** [subprocess.call(argv)]: the exit status. *)
Definition subprocess_call (argv : list string) : M Z :=
  p <- subprocess_run argv ;;
  ret (returncode p).

(** [urllib.request.urlretrieve(url, filename)] *)
Definition urlretrieve (url : string) (filename : path) : M unit :=
  log (EvUrlretrieve url filename) ;;
  match urlopen E url with
  | DlError => raise URLError
  | DlOk body => fs_op (py_create filename body)
  | DlShort body => fs_op (py_create filename body) ;; raise ContentTooShortError
  end.

(** [tarfile.open(p, 'r')] *)
Definition tarfile_open (p : path) : M TarFile :=
  log (EvTarOpen p) ;;
  c <- read_file p ;;
  match untar E c with
  | None => raise ReadError
  | Some t => ret t
  end.

Fixpoint make_dirs (base rel : path) (f : gmap path node) : gmap path node :=
  match rel with
  | [] => f
  | c :: rel' => make_dirs (base ++ [c]) rel' (<[base ++ [c] := Dir]> f)
  end.

Definition extract_member (dst : path) (f : gmap path node) (m : path * string)
  : gmap path node :=
  match m.1 with
  | [] => f
  | _ => <[dst ++ m.1 := File m.2]> (make_dirs dst (parent m.1) f)
  end.

(** [tar.extractall(path=dst)]; an archive that ends early makes it raise
    [tarfile.ReadError] after the members before the damage. *)
Definition extractall (tar : TarFile) (dst : path) : M unit :=
  log (EvExtractall dst) ;;
  modify (upd_fs (λ f, foldl (extract_member dst) f (members tar))) ;;
  if intact tar then ret tt else raise ReadError.

(** [tempfile.mkdtemp(prefix=..)]: the first candidate name that is not
    taken, under [/tmp]. *)
Definition mkdtemp (prefix : string) : M path :=
  f <- get wfs ;;
  match List.find (λ p, bool_decide (lookup_node f p = None))
                  ((λ n, tmp_root ++ [prefix +:+ n]) <$> tmp_names E) with
  | None => raise FileExistsError
  | Some d => log (EvMkdtemp d) ;; fs_op (py_mkdir d) ;; ret d
  end.

(** [TemporaryDirectory.cleanup]: the tree is removed; a tree that is
    already gone is not an error. *)
Definition cleanup (d : path) : M unit :=
  log (EvCleanup d) ;; modify (upd_fs (remove_tree d)).

(** [with TemporaryDirectory(prefix=..) as d: body] *)
Definition with_TemporaryDirectory {A} (prefix : string) (body : path → M A) : M A :=
  d <- mkdtemp prefix ;;
  try_finally (body d) (cleanup d).

(** [Environment(loader=FileSystemLoader(dir)).get_template(name)]: the
    source is read and compiled, so a source that is not a template makes
    this call raise, not the later [render]. *)
Definition get_template (dir : path) (name : string) : M template :=
  log (EvGetTemplate (dir ++ [name])) ;;
  n <- get (λ w, lookup_node (wfs w) (dir ++ [name])) ;;
  match n with
  | Some (File src) =>
      match jinja_compile E src with
      | Ok t => ret t
      | Raise e => raise e
      end
  | _ => raise TemplateNotFound
  end.

(** [template.render(context)] *)
Definition render (t : template) (context : gmap string (option string)) : M string :=
  match t context with
  | Ok text => ret text
  | Raise e => raise e
  end.

(** *** The provisioning steps *)

Definition _install_freeipmi : M unit :=
  result <- subprocess_run ["dpkg"; "-l"; "freeipmi"] ;;
  if negb (PyStr.contains "no packages found" (PyStr.lower (stdout result)))
  then _ <- subprocess_call ["apt-get"; "install"; "-y"; "freeipmi"] ;; ret tt
  else ret tt.

Definition _create_ipmi_exporter_user_group : M unit :=
  let group := "ipmi_exporter" in
  let cmd := "groupadd " +:+ group in
  _ <- subprocess_call (PyStr.words cmd) ;;
  let user := "ipmi_exporter" in
  let cmd := "useradd --system --no-create-home --gid " +:+ group +:+
             " --shell /usr/sbin/nologin " +:+ user in
  _ <- subprocess_call (PyStr.words cmd) ;;
  ret tt.

Definition _create_ipmi_exporter_configuration : M unit :=
  let template_dir := charm_dir E ++ ["templates"] in
  let config := "ipmi_exporter.yaml" in
  ex <- path_exists config_dir ;;
  (if negb ex then mkdir config_dir else ret tt) ;;
  copyfile (template_dir ++ [config]) (Path ("/etc/ipmi_exporter/" +:+ config)).

Definition _create_sudoers_file_for_ipmi_exporter : M unit :=
  open_w sudoers ;;
  file_write sudoers sudoers_rule.

Definition _create_systemd_service_unit : M unit :=
  let template_dir := charm_dir E ++ ["templates"] in
  let service := "ipmi_exporter.service" in
  copyfile (template_dir ++ [service]) (Path ("/etc/systemd/system/" +:+ service)) ;;
  _ <- subprocess_call ["systemctl"; "daemon-reload"] ;;
  _ <- subprocess_call ["systemctl"; "enable"; service] ;;
  ret tt.

Definition _render_sysconfig (context : gmap string (option string)) : M unit :=
  let template_dir := charm_dir E ++ ["templates"] in
  let template_file := "ipmi_exporter.tmpl" in
  ex <- path_exists sysconfig_dir ;;
  (if negb ex then mkdir sysconfig_dir else ret tt) ;;
  ex <- path_exists textfile_dir ;;
  (if negb ex then mkdir_parents textfile_dir else ret tt) ;;
  chown varlib "ipmi_exporter" "ipmi_exporter" ;;
  chown textfile_dir "ipmi_exporter" "ipmi_exporter" ;;
  template <- get_template template_dir template_file ;;
  let target := sysconfig_dir ++ ["ipmi_exporter"] in
  ex <- path_exists target ;;
  (if ex then unlink target else ret tt) ;;
  text <- render template context ;;
  write_text target text.

Definition download_url (version arch : string) : string :=
  "https://github.com/prometheus-community/ipmi_exporter/releases/download/v"
  +:+ version +:+ "/ipmi_exporter-" +:+ version +:+ ".linux-" +:+ arch +:+ ".tar.gz".

(** The first part of [_install_ipmi_exporter]: download, extract, copy
    the binary, clean up. *)
Definition install_binary (version arch : string) : M unit :=
  let url := download_url version arch in
  let output := archive_path in
  urlretrieve url output ;;
  tar <- tarfile_open output ;;
  with_TemporaryDirectory "charmtmp" (λ tmp_dir,
    extractall tar tmp_dir ;;
    let source := tmp_dir ++ Path ("ipmi_exporter-" +:+ version +:+ ".linux-" +:+ arch
                                   +:+ "/ipmi_exporter") in
    copy2 source bin_path) ;;
  unlink output.

Definition _install_ipmi_exporter (version arch listen_address : string) : M unit :=
  install_binary version arch ;;
  _install_freeipmi ;;
  _create_ipmi_exporter_user_group ;;
  _create_ipmi_exporter_configuration ;;
  _create_sudoers_file_for_ipmi_exporter ;;
  _create_systemd_service_unit ;;
  _render_sysconfig {[ "listen_address" := Some listen_address ]}.

Definition _uninstall_ipmi_exporter : M unit :=
  unlink (Path "/usr/bin/ipmi_exporter") ;;
  unlink (Path "/etc/systemd/system/ipmi_exporter.service") ;;
  unlink (Path "/etc/sysconfig/ipmi_exporter") ;;
  unlink (Path "/etc/ipmi_exporter/ipmi_exporter.yaml") ;;
  rmtree (Path "/var/lib/ipmi_exporter/") ;;
  let user := "ipmi_exporter" in
  let group := "ipmi_exporter" in
  _ <- subprocess_call ["userdel"; user] ;;
  _ <- subprocess_call ["groupdel"; group] ;;
  ret tt.

(** *** The charm class: the [port] property and the event handlers *)

(** [self.model.config.get("listen-address").split(":")[1]] *)
Definition port : M string :=
  la <- get (λ w, w_config w !! "listen-address") ;;
  match la with
  | None => raise AttributeError
  | Some s =>
      match PyStr.split ":" s !! 1%nat with
      | Some p => ret p
      | None => raise IndexError
      end
  end.

Definition _set_charm_version : M unit :=
  let command := ["/usr/bin/ipmi_exporter"; "--version"] in
  p <- subprocess_run command ;;
  let output := stdout p in
  match Re.search version_pattern output with
  | None => raise AttributeError
  | Some version => modify (set_version version)
  end.

Definition _on_install : M unit :=
  modify (set_status (MaintenanceStatus "Installing ipmi-exporter")) ;;
  la <- get (λ w, w_config w !! "listen-address") ;;
  zev <- get (λ w, w_config w !! "ipmi-exporter-version") ;;
  _install_ipmi_exporter (py_str zev) "amd64" (py_str la) ;;
  _set_charm_version ;;
  modify (set_status (ActiveStatus "ipmi-exporter installed")).

Definition _on_upgrade_charm : M unit :=
  modify (set_status (MaintenanceStatus "Upgrading ipmi-exporter")) ;;
  _set_charm_version ;;
  modify (set_status (ActiveStatus "ipmi-exporter upgraded")).

Definition _on_config_changed : M unit :=
  la <- get (λ w, w_config w !! "listen-address") ;;
  let params : gmap string (option string) := {[ "listen_address" := la ]} in
  _render_sysconfig params ;;
  _ <- subprocess_call ["systemctl"; "restart"; "ipmi_exporter"] ;;
  log EvSetHostPort ;;
  set_host_port E.

Definition _on_start : M unit :=
  _ <- subprocess_call ["systemctl"; "start"; "ipmi_exporter"] ;;
  modify (set_status (ActiveStatus "ipmi-exporter started")).

Definition _on_stop : M unit :=
  _ <- subprocess_call ["systemctl"; "stop"; "ipmi_exporter"] ;;
  _ <- subprocess_call ["systemctl"; "disable"; "ipmi_exporter"] ;;
  _uninstall_ipmi_exporter.

End Charm.

(** ** A reference environment

    One concrete behaviour of the outside world, used to run the charm on
    examples: the usual exit codes of the account tools, a package
    database, a service supervisor with one unit, one release on the
    network, and a renderer for templates whose only markup is
    [{{ name }}] and [{{ name() }}]. *)

Module Ref.

Definition set_users (u : gset string) (h : host) : host :=
  Host (fs h) (owners h) u (groups h) (packages h)
       (unit_loaded h) (unit_enabled h) (unit_active h).

Definition set_groups (g : gset string) (h : host) : host :=
  Host (fs h) (owners h) (users h) g (packages h)
       (unit_loaded h) (unit_enabled h) (unit_active h).

Definition set_packages (p : gset string) (h : host) : host :=
  Host (fs h) (owners h) (users h) (groups h) p
       (unit_loaded h) (unit_enabled h) (unit_active h).

Definition set_unit (l e a : bool) (h : host) : host :=
  Host (fs h) (owners h) (users h) (groups h) (packages h) l e a.

Definition done (code : Z) (h : host) : proc * host :=
  (Proc code EmptyString EmptyString, h).

Definition has_file (p : path) (h : host) : bool :=
  match fs h !! p with
  | Some (File _) => true
  | _ => false
  end.

Definition is_unit (u : string) : bool :=
  bool_decide (u = "ipmi_exporter") || bool_decide (u = "ipmi_exporter.service").

Definition systemctl (args : list string) (h : host) : proc * host :=
  match args with
  | [verb] =>
      if bool_decide (verb = "daemon-reload")
      then done 0 (set_unit (has_file unit_path h) (unit_enabled h)
                            (unit_active h && has_file unit_path h) h)
      else done 1 h
  | [verb; u] =>
      if negb (is_unit u) then done 5 h
      else if bool_decide (verb = "enable") then
        if has_file unit_path h
        then done 0 (set_unit (unit_loaded h) true (unit_active h) h)
        else done 1 h
      else if bool_decide (verb = "disable") then
        if has_file unit_path h
        then done 0 (set_unit (unit_loaded h) false (unit_active h) h)
        else done 1 h
      else if bool_decide (verb = "start") || bool_decide (verb = "restart") then
        if unit_loaded h && has_file bin_path h
        then done 0 (set_unit true (unit_enabled h) true h)
        else done 5 h
      else if bool_decide (verb = "stop") then
        if unit_loaded h
        then done 0 (set_unit true (unit_enabled h) false h)
        else done 5 h
      else done 1 h
  | _ => done 1 h
  end.

Definition groupadd (args : list string) (h : host) : proc * host :=
  match args with
  | [g] => if bool_decide (g ∈ groups h) then done 9 h
           else done 0 (set_groups ({[g]} ∪ groups h) h)
  | _ => done 2 h
  end.

Definition useradd (args : list string) (h : host) : proc * host :=
  match args with
  | [_; _; _; g; _; _; u] =>
      if bool_decide (u ∈ users h) then done 9 h
      else if bool_decide (g ∈ groups h) then done 0 (set_users ({[u]} ∪ users h) h)
      else done 6 h
  | _ => done 2 h
  end.

Definition userdel (args : list string) (h : host) : proc * host :=
  match args with
  | [u] => if bool_decide (u ∈ users h) then done 0 (set_users (users h ∖ {[u]}) h)
           else done 6 h
  | _ => done 2 h
  end.

Definition groupdel (args : list string) (h : host) : proc * host :=
  match args with
  | [g] => if bool_decide (g ∈ groups h) then done 0 (set_groups (groups h ∖ {[g]}) h)
           else done 6 h
  | _ => done 2 h
  end.

(** [dpkg -l pkg]: the listing goes to standard output; for an unknown
    package standard output is empty and the complaint goes to standard
    error. *)
Definition dpkg (args : list string) (h : host) : proc * host :=
  match args with
  | [_; pkg] =>
      if bool_decide (pkg ∈ packages h)
      then (Proc 0 ("ii  " +:+ pkg +:+ "  1.6.9-2  amd64  GNU IPMI - tools") EmptyString, h)
      else (Proc 1 EmptyString ("dpkg-query: no packages found matching " +:+ pkg), h)
  | _ => done 2 h
  end.

Definition apt_get (args : list string) (h : host) : proc * host :=
  match args with
  | [_; _; pkg] => done 0 (set_packages ({[pkg]} ∪ packages h) h)
  | _ => done 100 h
  end.

(** The exporter prints its banner, which the model keeps as the
    content of the binary. *)
Definition exporter (h : host) : proc * host :=
  match fs h !! bin_path with
  | Some (File banner) => (Proc 0 banner EmptyString, h)
  | _ => done 127 h
  end.

Definition exec (argv : list string) (h : host) : proc * host :=
  match argv with
  | prog :: args =>
      if bool_decide (prog = "systemctl") then systemctl args h
      else if bool_decide (prog = "groupadd") then groupadd args h
      else if bool_decide (prog = "useradd") then useradd args h
      else if bool_decide (prog = "userdel") then userdel args h
      else if bool_decide (prog = "groupdel") then groupdel args h
      else if bool_decide (prog = "dpkg") then dpkg args h
      else if bool_decide (prog = "apt-get") then apt_get args h
      else if bool_decide (prog = "/usr/bin/ipmi_exporter") then exporter h
      else done 127 h
  | [] => done 127 h
  end.

Definition release_body : string := "ipmi_exporter-1.9.1.linux-amd64.tar.gz".

(** An archive that ends in the middle of its second member. *)
Definition truncated_body : string := "ipmi_exporter-0.0.1.linux-amd64.tar.gz (cut)".

Definition banner : string :=
  "ipmi_exporter, version 1.9.1 (branch: HEAD, revision: 3d4e5f)".

Definition urlopen (url : string) : dl_outcome :=
  if bool_decide (url = "https://github.com/prometheus-community/ipmi_exporter/releases/download/v1.9.1/ipmi_exporter-1.9.1.linux-amd64.tar.gz")
  then DlOk release_body
  else if bool_decide (url = "https://github.com/prometheus-community/ipmi_exporter/releases/download/v0.0.0/ipmi_exporter-0.0.0.linux-amd64.tar.gz")
  then DlOk "<html>not an archive</html>"
  else if bool_decide (url = "https://github.com/prometheus-community/ipmi_exporter/releases/download/v0.0.1/ipmi_exporter-0.0.1.linux-amd64.tar.gz")
  then DlOk truncated_body
  else DlError.

Definition untar (body : string) : option TarFile :=
  if bool_decide (body = release_body)
  then Some (Tar [(["ipmi_exporter-1.9.1.linux-amd64"; "LICENSE"], "Apache-2.0");
                  (["ipmi_exporter-1.9.1.linux-amd64"; "ipmi_exporter"], banner)] true)
  else if bool_decide (body = truncated_body)
  then Some (Tar [(["ipmi_exporter-0.0.1.linux-amd64"; "LICENSE"], "Apache-2.0")] false)
  else None.

(** Templates: text with [{{ name }}] and [{{ name() }}] placeholders.
    An undefined name renders as the empty string and [None] as its
    name, as Jinja2 does by default; a call fails when the template is
    rendered ([UndefinedError] for an undefined name, [TypeError] for a
    string or [None], which cannot be called).  A placeholder that is not
    closed is a syntax error, found when the template is compiled.  One
    newline at the end of the source is dropped, as Jinja2 does by
    default. *)
Fixpoint until_close (s : string) : option (string * string) :=
  match s with
  | EmptyString => None
  | String c s' =>
      if String.prefix "}}" s then Some (EmptyString, String.substring 2 (String.length s) s)
      else match until_close s' with
           | Some (a, r) => Some (String c a, r)
           | None => None
           end
  end.

Inductive piece :=
| Lit (c : ascii)
| Var (name : string).

Fixpoint parse_fuel (n : nat) (s : string) : option (list piece) :=
  match n, s with
  | O, _ => Some []
  | _, EmptyString => Some []
  | S n', String c s' =>
      if String.prefix "{{" s then
        match until_close (String.substring 2 (String.length s) s) with
        | None => None
        | Some (name, rest) =>
            match parse_fuel n' rest with
            | Some ps => Some (Var (PyStr.strip name) :: ps)
            | None => None
            end
        end
      else match parse_fuel n' s' with
           | Some ps => Some (Lit c :: ps)
           | None => None
           end
  end.

(** The name before a final [()]. *)
Fixpoint call_base (s : string) : option string :=
  match s with
  | EmptyString => None
  | String c s' =>
      if bool_decide (s = "()") then Some EmptyString
      else match call_base s' with
           | Some b => Some (String c b)
           | None => None
           end
  end.

Definition value (context : gmap string (option string)) (name : string) : result string :=
  match call_base name with
  | Some f =>
      match context !! PyStr.strip f with
      | None => Raise UndefinedError
      | Some _ => Raise TypeError
      end
  | None =>
      Ok match context !! name with
         | Some (Some v) => v
         | Some None => "None"
         | None => EmptyString
         end
  end.

Fixpoint render_pieces (ps : list piece) (context : gmap string (option string))
  : result string :=
  match ps with
  | [] => Ok EmptyString
  | Lit c :: ps' =>
      match render_pieces ps' context with
      | Ok t => Ok (String c t)
      | Raise e => Raise e
      end
  | Var name :: ps' =>
      match value context name with
      | Ok v =>
          match render_pieces ps' context with
          | Ok t => Ok (v +:+ t)
          | Raise e => Raise e
          end
      | Raise e => Raise e
      end
  end.

Fixpoint chomp (s : string) : string :=
  match s with
  | EmptyString => EmptyString
  | String c EmptyString => if Ascii.eqb c Re.newline then EmptyString else s
  | String c s' => String c (chomp s')
  end.

Definition jinja_compile (src : string) : result template :=
  match parse_fuel (S (String.length src)) (chomp src) with
  | Some ps => Ok (render_pieces ps)
  | None => Raise TemplateSyntaxError
  end.

Definition jinja_render (src : string) (context : gmap string (option string))
  : result string :=
  match jinja_compile src with
  | Ok t => t context
  | Raise e => Raise e
  end.

Definition charm_dir : path := Path "/var/lib/juju/agents/unit-ipmi-exporter-0/charm/src".

(** The helper publishes the port of the charm. *)
Definition set_host_port : M unit :=
  _ <- port ;; ret tt.

Definition env : environ :=
  Environ exec urlopen untar ["k3f9x2ab"; "q7w1e5zz"] charm_dir jinja_compile set_host_port.

Definition sysconfig_template : string := "listen_address={{ listen_address }}".

(** A machine on which nothing has been provisioned yet. *)
Definition fresh_fs : gmap path node :=
  list_to_map
    [ (["tmp"], Dir); (["usr"], Dir); (["usr"; "bin"], Dir);
      (["etc"], Dir); (["etc"; "systemd"], Dir); (["etc"; "systemd"; "system"], Dir);
      (["etc"; "sudoers.d"], Dir); (["var"], Dir); (["var"; "lib"], Dir);
      (charm_dir, Dir); (charm_dir ++ ["templates"], Dir);
      (charm_dir ++ ["templates"; "ipmi_exporter.yaml"], File "modules: {}");
      (charm_dir ++ ["templates"; "ipmi_exporter.service"],
         File "[Service] ExecStart=/usr/bin/ipmi_exporter");
      (charm_dir ++ ["templates"; "ipmi_exporter.tmpl"], File sysconfig_template) ].

Definition fresh_host : host :=
  Host fresh_fs ∅ ∅ ∅ ∅ false false false.

Definition config (version listen : string) : gmap string string :=
  {[ "ipmi-exporter-version" := version; "listen-address" := listen ]}.

Definition world_of (h : host) (c : gmap string string) : world :=
  World h c UnknownStatus None [].

Definition fresh : world := world_of fresh_host (config "1.9.1" "0.0.0.0:9290").

(** The machine after a successful install. *)
Definition installed : world := (_on_install env fresh).2.

End Ref.

(** ** Observations used by the statements *)

(** The events a run added to the trace. *)
Definition new_events (w w' : world) : list event :=
  drop (length (w_trace w)) (w_trace w').

(** The steps of the install sequence, in the order of the specification. *)
Inductive phase :=
| PBinary
| PDependency
| PAccount
| PConfig
| PGrant
| PUnit
| PSysconfig.

#[global] Instance phase_eq_dec : EqDecision phase.
Proof. solve_decision. Defined.



Definition all_phases : list phase :=
  [PBinary; PDependency; PAccount; PConfig; PGrant; PUnit; PSysconfig].

Definition useradd_argv : list string :=
  ["useradd"; "--system"; "--no-create-home"; "--gid"; "ipmi_exporter";
   "--shell"; "/usr/sbin/nologin"; "ipmi_exporter"].

(** The step an operation on the host belongs to, read off the operation
    itself: which tool is run, which path is touched. *)
Definition phase_of (e : event) : option phase :=
  match e with
  | EvUrlretrieve _ _ | EvTarOpen _ | EvMkdtemp _ | EvExtractall _
  | EvCopy2 _ _ | EvCleanup _ => Some PBinary
  | EvUnlink p =>
      if decide (p = archive_path) then Some PBinary
      else if decide (p = sysconfig_path) then Some PSysconfig
      else None
  | EvExec argv =>
      let prog := List.hd EmptyString argv in
      if decide (prog = "dpkg") then Some PDependency
      else if decide (prog = "apt-get") then Some PDependency
      else if decide (prog = "groupadd") then Some PAccount
      else if decide (prog = "useradd") then Some PAccount
      else if decide (prog = "systemctl") then Some PUnit
      else None
  | EvMkdir p =>
      if decide (p = config_dir) then Some PConfig
      else if decide (p = sysconfig_dir) then Some PSysconfig
      else if decide (p = textfile_dir) then Some PSysconfig
      else None
  | EvCopyfile _ dst =>
      if decide (dst = config_path) then Some PConfig
      else if decide (dst = unit_path) then Some PUnit
      else None
  | EvOpenW p | EvWrite p _ =>
      if decide (p = sudoers) then Some PGrant
      else if decide (p = sysconfig_path) then Some PSysconfig
      else None
  | EvChown _ _ _ | EvGetTemplate _ => Some PSysconfig
  | EvRmtree _ | EvSetHostPort => None
  end.

(** The operation whose attempt shows that a step ran to its main action. *)
Definition completes (p : phase) (e : event) : bool :=
  match p, e with
  | PBinary, EvCopy2 _ dst => bool_decide (dst = bin_path)
  | PDependency, EvExec argv => bool_decide (argv = ["dpkg"; "-l"; "freeipmi"])
  | PAccount, EvExec argv => bool_decide (argv = useradd_argv)
  | PConfig, EvCopyfile _ dst => bool_decide (dst = config_path)
  | PGrant, EvWrite p data => bool_decide (p = sudoers ∧ data = sudoers_rule)
  | PUnit, EvExec argv =>
      bool_decide (argv = ["systemctl"; "enable"; "ipmi_exporter.service"])
  | PSysconfig, EvWrite p _ => bool_decide (p = sysconfig_path)
  | _, _ => false
  end.

(** A run of steps, and the worlds an outside observer can see: the one
    after each step that was started. *)
Fixpoint seq_steps (ms : list (M unit)) : M unit :=
  match ms with
  | [] => ret tt
  | [m] => m
  | m :: ms' => m ;; seq_steps ms'
  end.

Fixpoint observable_states (ms : list (M unit)) (w : world) : list world :=
  match ms with
  | [] => []
  | m :: ms' =>
      match m w with
      | (Ok _, w') => w' :: observable_states ms' w'
      | (Raise _, w') => [w']
      end
  end.

Definition sudoers_steps : list (M unit) :=
  [open_w sudoers; file_write sudoers sudoers_rule].

(** A file is replaced atomically by a run of steps when every observable
    state shows either what was there before or the final content. *)
Definition replaced_atomically (p : path) (ms : list (M unit)) (w : world) : Prop :=
  ∀ w', w' ∈ observable_states ms w →
        wfs w' !! p = wfs w !! p ∨ wfs w' !! p = wfs (seq_steps ms w).2 !! p.

(** The same environment with other exit statuses of the host tools. *)
Definition with_exit_codes (code : list string → host → Z) (E : environ) : environ :=
  Environ (λ argv h, let '(p, h') := exec E argv h in
                     (Proc (code argv h) (stdout p) (stderr p), h'))
          (urlopen E) (untar E) (tmp_names E) (charm_dir E)
          (jinja_compile E) (set_host_port E).

(** ** Notions used to reason about runs *)

(** [traces m Φ]: from every world, [m] only appends to the trace, and its
    outcome and the appended events satisfy [Φ]. *)
Definition traces {A} (m : M A) (Φ : result A → list event → Prop) : Prop :=
  ∀ w, ∃ evs, w_trace (m w).2 = w_trace w ++ evs ∧ Φ (m w).1 evs.

(** [wp m Φ w]: the outcome and final world of [m] run from [w] satisfy [Φ]. *)
Definition wp {A} (m : M A) (Φ : result A → world → Prop) (w : world) : Prop :=
  Φ (m w).1 (m w).2.

(** A step of the install sequence: all its operations belong to one
    phase, and a run that returns has attempted the main one. *)
Definition runs_phase (p : phase) (m : M unit) : Prop :=
  traces m (λ r evs,
    Forall (λ e, phase_of e = Some p) evs ∧
    (r = Ok tt → Exists (λ e, completes p e = true) evs)).


(** The trace of a sequence of steps, one per phase, that stops at the
    first step that raises. *)
Inductive phase_run : list phase → result unit → list event → Prop :=
| run_nil : phase_run [] (Ok tt) []
| run_fail p ps e evs :
    Forall (λ e, phase_of e = Some p) evs →
    phase_run (p :: ps) (Raise e) evs
| run_cons p ps r evs1 evs2 :
    Forall (λ e, phase_of e = Some p) evs1 →
    Exists (λ e, completes p e = true) evs1 →
    phase_run ps r evs2 →
    phase_run (p :: ps) r (evs1 ++ evs2).

(** Every file of [f'] is a file of [f] with the same content. *)
Definition keeps_files (f f' : gmap path node) : Prop :=
  ∀ q c, f' !! q = Some (File c) → f !! q = Some (File c).

(** The template of the sysconfig file. *)
Definition template_path (E : environ) : path :=
  (charm_dir E ++ ["templates"]) ++ ["ipmi_exporter.tmpl"].

Definition version_query : list string := ["/usr/bin/ipmi_exporter"; "--version"].
Definition dpkg_query : list string := ["dpkg"; "-l"; "freeipmi"].
Definition apt_install : list string := ["apt-get"; "install"; "-y"; "freeipmi"].

(** ** Reading a sudoers rule

    [who hosts = TAG: command, command, ...]; blank lines are skipped. *)

Module Sudoers.

Record rule := Rule {
  who : string;
  hosts : string;
  tag : string;
  commands : list string;
}.

Definition parse_line (l : string) : option rule :=
  match PyStr.split "=" l with
  | [lhs; rhs] =>
      match PyStr.words lhs, PyStr.split ":" rhs with
      | [u; h], [t; cmds] =>
          Some (Rule u h (PyStr.strip t) (PyStr.strip <$> PyStr.split "," cmds))
      | _, _ => None
      end
  | _ => None
  end.

Definition parse (text : string) : list (option rule) :=
  parse_line <$> filter (λ l, PyStr.strip l ≠ EmptyString)
                        (PyStr.split Re.newline text).

(** The fixed allow-list of helper programs. *)
Definition allow_list : list string :=
  [ "/usr/sbin/ipmimonitoring"; "/usr/sbin/ipmi-sensors"; "/usr/sbin/ipmi-dcmi";
    "/usr/sbin/ipmi-raw"; "/usr/sbin/bmc-info"; "/usr/sbin/ipmi-chassis";
    "/usr/sbin/ipmi-sel" ].

End Sudoers.

(** Worlds used as examples. *)
Module Examples.

(** A machine left by a complete stop: every provisioned path is gone. *)
Definition stopped : world := (_on_stop Ref.env Ref.installed).2.

(** The first install has put a binary in place whose banner carries a
    build date and no version. *)
Definition odd_banner : string := "ipmi_exporter (build 20240101)".

Definition odd_binary : world :=
  upd_fs (λ f, <[bin_path := File odd_banner]> f) Ref.installed.

(** A release whose download is not an archive. *)
Definition bad_release : world :=
  Ref.world_of Ref.fresh_host (Ref.config "0.0.0" "0.0.0.0:9290").

(** A release whose archive is cut short. *)
Definition truncated_release : world :=
  Ref.world_of Ref.fresh_host (Ref.config "0.0.1" "0.0.0.0:9290").

(** The sysconfig file holds text from an earlier deployment. *)
Definition stale_sysconfig : world :=
  upd_fs (λ f, <[sysconfig_path := File "listen_address=10.0.0.1:1 EXTRA=stale"]> f)
         Ref.installed.

End Examples.

(** ** Further notions

    Notions used by the properties of the handlers and provisioning steps
    that come after the ones above. *)

(** ** What the search of a pattern means

    [matches p m]: the text [m] is matched by the pattern [p] as a whole. *)
Inductive matches : list Re.item → string → Prop :=
| matches_nil : matches [] EmptyString
| matches_one a c p m :
    Re.atom_ok a c = true → matches p m → matches (Re.One a :: p) (String c m)
| matches_plus_last a c p m :
    Re.atom_ok a c = true → matches p m → matches (Re.Plus a :: p) (String c m)
| matches_plus_more a c p m :
    Re.atom_ok a c = true → matches (Re.Plus a :: p) m →
    matches (Re.Plus a :: p) (String c m).

(** A non-empty run of decimal digits. *)
Fixpoint digits (s : string) : bool :=
  match s with
  | EmptyString => false
  | String c EmptyString => PyStr.is_digit c
  | String c s' => PyStr.is_digit c && digits s'
  end.

(** The charm's own state, as opposed to the host and the trace. *)
Definition charm_state (w : world) : gmap string string * status * option string :=
  (w_config w, w_status w, w_version w).

(** [preserves proj m]: running [m] never changes [proj] of the world. *)
Definition preserves {A B} (proj : world → B) (m : M A) : Prop :=
  ∀ w, proj (m w).2 = proj w.

(** The output of the version query on a host. *)
Definition version_output (E : environ) (w : world) : string :=
  stdout (exec E version_query (w_host w)).1.

(** More example worlds. *)
Module Cases.

(** The binary prints a banner without any digit. *)
Definition mute_binary : world :=
  upd_fs (λ f, <[bin_path := File "ipmi_exporter (unknown build)"]> f) Ref.installed.

(** The template of the sysconfig file has an unclosed placeholder. *)
Definition broken_template : world :=
  upd_fs (λ f, <[template_path Ref.env := File "ARGS={{ listen_address"]> f) Ref.installed.

(** The template of the sysconfig file calls a name that is not defined:
    it compiles, and fails when it is rendered. *)
Definition calling_template : world :=
  upd_fs (λ f, <[template_path Ref.env := File "ARGS={{ port() }}"]> f) Ref.installed.

(** The service account has been removed by hand. *)
Definition no_account : world :=
  set_host (Ref.set_groups ∅ (Ref.set_users ∅ (w_host Ref.installed))) Ref.installed.

End Cases.


(** The unit file shipped with the charm. *)
Definition unit_template (E : environ) : path :=
  (charm_dir E ++ ["templates"]) ++ ["ipmi_exporter.service"].

Definition restart_command : list string := ["systemctl"; "restart"; "ipmi_exporter"].

(** The helper of the [prometheus_ipmi_exporter] module performs none of
    the operations that the trace records. *)
Definition helper_is_silent (E : environ) : Prop :=
  ∀ w, w_trace (set_host_port E w).2 = w_trace w.

(** Host tools that leave the files alone (the account tools and the
    supervisor change accounts and unit state only). *)
Definition tools_keep_files (E : environ) : Prop :=
  ∀ argv h, fs (exec E argv h).2 = fs h.

(** The files that teardown deletes one by one. *)
Definition provisioned_files : list path :=
  [bin_path; unit_path; sysconfig_path; config_path].

(** A host on which the sysconfig file can be rendered: the directories
    are there, the service account exists and the template is in place. *)
Definition render_ready (E : environ) (w : world) (src : string) : Prop :=
  wfs w !! sysconfig_dir = Some Dir ∧
  wfs w !! textfile_dir = Some Dir ∧
  wfs w !! varlib = Some Dir ∧
  "ipmi_exporter" ∈ users (w_host w) ∧
  "ipmi_exporter" ∈ groups (w_host w) ∧
  wfs w !! template_path E = Some (File src).

(** The exporter configuration shipped with the charm. *)
Definition config_template (E : environ) : path :=
  (charm_dir E ++ ["templates"]) ++ ["ipmi_exporter.yaml"].

(** * Properties *)

(** ** Strings *)


Lemma append_nil (t : string) : EmptyString +:+ t = t.
Proof. reflexivity. Qed.

Lemma append_cons (c : ascii) (s t : string) : String c s +:+ t = String c (s +:+ t).
Proof. reflexivity. Qed.

Lemma append_empty_r (s : string) : s +:+ EmptyString = s.
Proof. induction s as [|c s IH]; [done | by rewrite append_cons, IH]. Qed.

Lemma split_nonempty sep s : PyStr.split sep s ≠ [].
Proof.
  induction s as [|c s IH]; simpl; [done|].
  destruct (ascii_dec c sep); [done|].
  by destruct (PyStr.split sep s).
Qed.

Lemma split_no_sep sep s :
  PyStr.has_char sep s = false → PyStr.split sep s = [s].
Proof.
  induction s as [|c s IH]; simpl; [done|].
  destruct (ascii_dec c sep); [done|].
  intros H. by rewrite IH.
Qed.

Lemma split_at_sep sep a rest :
  PyStr.has_char sep a = false →
  PyStr.split sep (a +:+ String sep rest) = a :: PyStr.split sep rest.
Proof.
  induction a as [|c a IH]; rewrite ?append_nil, ?append_cons; simpl.
  - intros _. by destruct (ascii_dec sep sep).
  - destruct (ascii_dec c sep); [done|].
    intros H. by rewrite IH.
Qed.

Example search_banner :
  Re.search version_pattern "ipmi_exporter version 1.9.1 (branch: HEAD)" = Some "1.9.1".
Proof. reflexivity. Qed.

Example search_greedy :
  Re.search version_pattern "v12.345.6789-rc1" = Some "12.345.6789".
Proof. reflexivity. Qed.

Example split_host_port : PyStr.split ":" "0.0.0.0:9290" = ["0.0.0.0"; "9290"].
Proof. reflexivity. Qed.

Example words_useradd :
  PyStr.words "useradd --system --no-create-home --gid g --shell /usr/sbin/nologin u"
  = ["useradd"; "--system"; "--no-create-home"; "--gid"; "g"; "--shell";
     "/usr/sbin/nologin"; "u"].
Proof. reflexivity. Qed.


(** ** What a computation adds to the trace *)

Lemma new_events_app w w' evs :
  w_trace w' = w_trace w ++ evs → new_events w w' = evs.
Proof. intros H. unfold new_events. rewrite H. by rewrite drop_app_length. Qed.

Lemma wtrace_emit e w : w_trace (emit e w) = w_trace w ++ [e].
Proof. done. Qed.

Lemma wtrace_upd_fs f w : w_trace (upd_fs f w) = w_trace w.
Proof. done. Qed.

Lemma wfs_emit e w : wfs (emit e w) = wfs w.
Proof. done. Qed.

Lemma wfs_upd_fs f w : wfs (upd_fs f w) = f (wfs w).
Proof. done. Qed.

Lemma lookup_node_cons f c p : lookup_node f (c :: p) = f !! (c :: p).
Proof. done. Qed.

Lemma py_create_lookup p data f f' :
  py_create p data f = Ok f' → f' = <[p := File data]> f.
Proof. unfold py_create. intros H. repeat case_match; by simplify_eq. Qed.




Section traces.

Context {A B : Type}.
Implicit Types (Φ : result A → list event → Prop).

Lemma traces_ret (a : A) Φ : Φ (Ok a) [] → traces (ret a) Φ.
Proof. intros H w. exists []. rewrite app_nil_r. split; [done | apply H]. Qed.

Lemma traces_raise (e : exn) Φ : Φ (Raise e) [] → traces (raise e) Φ.
Proof. intros H w. exists []. rewrite app_nil_r. split; [done | apply H]. Qed.

Lemma traces_get (f : world → A) Φ : (∀ a, Φ (Ok a) []) → traces (get f) Φ.
Proof. intros H w. exists []. rewrite app_nil_r. split; [done | apply H]. Qed.

Lemma traces_bind (m : M A) (k : A → M B) (Ψ : result B → list event → Prop) :
  traces m (λ r evs1,
    match r with
    | Ok a => traces (k a) (λ r' evs2, Ψ r' (evs1 ++ evs2))
    | Raise e => Ψ (Raise e) evs1
    end) →
  traces (bind m k) Ψ.
Proof.
  intros H w. destruct (H w) as (evs1 & Ht & HΦ).
  unfold bind. destruct (m w) as [[a|e] w1]; simpl in *.
  - destruct (HΦ w1) as (evs2 & Ht2 & HΨ).
    exists (evs1 ++ evs2). by rewrite Ht2, Ht, app_assoc.
  - by exists evs1.
Qed.

Lemma traces_try_finally (body : M A) (fin : M unit) Φ :
  traces body (λ r evs1,
    traces fin (λ r' evs2,
      Φ (match r' with Ok _ => r | Raise e => Raise e end) (evs1 ++ evs2))) →
  traces (try_finally body fin) Φ.
Proof.
  intros H w. destruct (H w) as (evs1 & Ht & HΦ).
  unfold try_finally. destruct (body w) as [r w1]; simpl in *.
  destruct (HΦ w1) as (evs2 & Ht2 & HΨ).
  exists (evs1 ++ evs2). destruct (fin w1) as [[[]|e] w2]; simpl in *;
    by rewrite Ht2, Ht, app_assoc.
Qed.

Lemma traces_wand (m : M A) Φ (Ψ : result A → list event → Prop) :
  traces m Φ → (∀ r evs, Φ r evs → Ψ r evs) → traces m Ψ.
Proof. intros H HΦ w. destruct (H w) as (evs & ? & ?). exists evs. eauto. Qed.

End traces.

Lemma traces_log e (Φ : result unit → list event → Prop) :
  Φ (Ok tt) [e] → traces (log e) Φ.
Proof. intros H w. by exists [e]. Qed.

Lemma traces_fs_op f (Φ : result unit → list event → Prop) :
  (∀ r, Φ r []) → traces (fs_op f) Φ.
Proof.
  intros H w. exists []. rewrite app_nil_r. unfold fs_op.
  by destruct (f (wfs w)).
Qed.

Lemma traces_modify f (Φ : result unit → list event → Prop) :
  (∀ w, w_trace (f w) = w_trace w) → Φ (Ok tt) [] → traces (modify f) Φ.
Proof.
  intros Hf H w. exists []. rewrite app_nil_r. split; [apply Hf | apply H].
Qed.

(** Stepping through a computation: binds are opened, primitives leave
    their event, and every outcome of a host operation is considered. *)
Ltac traces_step :=
  lazymatch goal with
  | |- traces (bind _ _) _ => apply traces_bind
  | |- traces (try_finally _ _) _ => apply traces_try_finally
  | |- traces (ret _) _ => apply traces_ret
  | |- traces (raise _) _ => apply traces_raise
  | |- traces (get _) _ => apply traces_get; intros ?
  | |- traces (log _) _ => apply traces_log
  | |- traces (fs_op _) _ => apply traces_fs_op; intros []
  | |- traces (modify _) _ => apply traces_modify; [done|]
  | |- traces (if ?b then _ else _) _ => destruct b
  | |- traces (match ?x with _ => _ end) _ => destruct x
  end; cbn beta iota.

Lemma traces_subprocess_run E argv (Φ : result proc → list event → Prop) :
  (∀ r, Φ r [EvExec argv]) → traces (subprocess_run E argv) Φ.
Proof.
  intros H. unfold subprocess_run, check_program.
  repeat traces_step; try done.
  all: intros w; exists []; rewrite app_nil_r; split; [|apply H].
  all: by destruct (exec E argv (w_host w)).
Qed.

Lemma traces_subprocess_call E argv (Φ : result Z → list event → Prop) :
  (∀ r, Φ r [EvExec argv]) → traces (subprocess_call E argv) Φ.
Proof.
  intros H. unfold subprocess_call. apply traces_bind, traces_subprocess_run.
  intros [p|e]; [|apply H]. apply traces_ret. rewrite app_nil_r. apply H.
Qed.

Ltac traces_prim :=
  lazymatch goal with
  | |- traces (subprocess_run _ _) _ => apply traces_subprocess_run; intros []
  | |- traces (subprocess_call _ _) _ => apply traces_subprocess_call; intros []
  | |- traces (?f _ _ _ _) _ => unfold f
  | |- traces (?f _ _ _) _ => unfold f
  | |- traces (?f _ _) _ => unfold f
  | |- traces (?f _) _ => unfold f
  | |- traces ?f _ => unfold f
  end; cbn beta iota.

Ltac traces_run := repeat first [traces_step | traces_prim].


Ltac find_marker :=
  first [ apply Exists_cons_hd; reflexivity | apply Exists_cons_tl; find_marker ].

Ltac phase_facts :=
  simpl; split; [repeat constructor | intros ?; simplify_eq; find_marker].

Lemma binary_phase E version arch : runs_phase PBinary (install_binary E version arch).
Proof. unfold runs_phase. traces_run; phase_facts. Qed.

Lemma freeipmi_phase E : runs_phase PDependency (_install_freeipmi E).
Proof. unfold runs_phase. traces_run; phase_facts. Qed.

Lemma account_phase E : runs_phase PAccount (_create_ipmi_exporter_user_group E).
Proof. unfold runs_phase. traces_run; phase_facts. Qed.

Lemma config_phase E : runs_phase PConfig (_create_ipmi_exporter_configuration E).
Proof. unfold runs_phase. traces_run; phase_facts. Qed.

Lemma grant_phase : runs_phase PGrant _create_sudoers_file_for_ipmi_exporter.
Proof. unfold runs_phase. traces_run; phase_facts. Qed.

Lemma unit_phase E : runs_phase PUnit (_create_systemd_service_unit E).
Proof. unfold runs_phase. traces_run; phase_facts. Qed.

Lemma sysconfig_phase E ctx : runs_phase PSysconfig (_render_sysconfig E ctx).
Proof. unfold runs_phase. traces_run; phase_facts. Qed.
(** ** Outcomes and final states *)


Section wp_rules.

Context {A B : Type}.

Lemma wp_ret (a : A) Φ w : Φ (Ok a) w → wp (ret a) Φ w.
Proof. done. Qed.

Lemma wp_raise (e : exn) (Φ : result A → world → Prop) w :
  Φ (Raise e) w → wp (raise e) Φ w.
Proof. done. Qed.

Lemma wp_get (f : world → A) Φ w : Φ (Ok (f w)) w → wp (get f) Φ w.
Proof. done. Qed.

Lemma wp_bind (m : M A) (k : A → M B) (Ψ : result B → world → Prop) w :
  wp m (λ r w', match r with
                | Ok a => wp (k a) Ψ w'
                | Raise e => Ψ (Raise e) w'
                end) w →
  wp (bind m k) Ψ w.
Proof. unfold wp, bind. by destruct (m w) as [[a|e] w']. Qed.

Lemma wp_try_finally (body : M A) (fin : M unit) Φ w :
  wp body (λ r w1, wp fin (λ r' w2,
    Φ (match r' with Ok _ => r | Raise e => Raise e end) w2) w1) w →
  wp (try_finally body fin) Φ w.
Proof.
  unfold wp, try_finally. destruct (body w) as [r w1]. simpl.
  by destruct (fin w1) as [[[]|e] w2].
Qed.

End wp_rules.

Lemma wp_modify f (Φ : result unit → world → Prop) w :
  Φ (Ok tt) (f w) → wp (modify f) Φ w.
Proof. done. Qed.

Lemma wp_log e (Φ : result unit → world → Prop) w :
  Φ (Ok tt) (emit e w) → wp (log e) Φ w.
Proof. done. Qed.

Lemma wp_fs_op f (Φ : result unit → world → Prop) w :
  (∀ f', f (wfs w) = Ok f' → Φ (Ok tt) (upd_fs (λ _, f') w)) →
  (∀ e, f (wfs w) = Raise e → Φ (Raise e) w) →
  wp (fs_op f) Φ w.
Proof.
  intros Hok Herr. unfold wp, fs_op.
  destruct (f (wfs w)) as [f'|e]; [by apply Hok | by apply Herr].
Qed.

Ltac wp_step :=
  lazymatch goal with
  | |- wp (bind _ _) _ _ => apply wp_bind
  | |- wp (try_finally _ _) _ _ => apply wp_try_finally
  | |- wp (ret _) _ _ => apply wp_ret
  | |- wp (raise _) _ _ => apply wp_raise
  | |- wp (get _) _ _ => apply wp_get
  | |- wp (log _) _ _ => apply wp_log
  | |- wp (modify _) _ _ => apply wp_modify
  | |- wp (fs_op _) _ _ => apply wp_fs_op; [intros ? ?|intros ? ?]
  | |- wp (if ?b then _ else _) _ _ => destruct b eqn:?
  | |- wp (match ?x with _ => _ end) _ _ => destruct x eqn:?
  end; cbn beta iota.

Ltac wp_unfold :=
  lazymatch goal with
  | |- wp (?f _ _ _ _) _ _ => unfold f
  | |- wp (?f _ _ _) _ _ => unfold f
  | |- wp (?f _ _) _ _ => unfold f
  | |- wp (?f _) _ _ => unfold f
  | |- wp ?f _ _ => unfold f
  end; cbn beta iota.

Ltac wp_run := repeat first [wp_step | wp_unfold].

(** ** Files survive the creation of directories *)


Lemma keeps_files_refl f : keeps_files f f.
Proof. by intros q c. Qed.

Lemma keeps_files_trans f1 f2 f3 :
  keeps_files f1 f2 → keeps_files f2 f3 → keeps_files f1 f3.
Proof. intros H12 H23 q c H. auto. Qed.

Lemma keeps_files_insert_dir f p : keeps_files f (<[p := Dir]> f).
Proof.
  intros q c H. destruct (decide (p = q)) as [->|Hne].
  - by rewrite lookup_insert_eq in H.
  - by rewrite lookup_insert_ne in H.
Qed.

Lemma py_mkdir_keeps p f f' : py_mkdir p f = Ok f' → keeps_files f f'.
Proof.
  unfold py_mkdir. intros H. repeat case_match; simplify_eq.
  apply keeps_files_insert_dir.
Qed.

Lemma py_mkdir_parents_from_keeps rest base f f' :
  py_mkdir_parents_from base rest f = Ok f' → keeps_files f f'.
Proof.
  revert base f. induction rest as [|c rest IH]; intros base f H; simpl in H; [done|].
  repeat case_match; simplify_eq;
    eauto using keeps_files_insert_dir, keeps_files_trans.
Qed.

(** ** Running host tools *)

(** A tool found through [PATH] runs, whatever the host looks like; the
    caller gets its exit status and the host it leaves. *)
Lemma subprocess_run_tool E argv w :
  String.prefix "/" (List.hd EmptyString argv) = false →
  subprocess_run E argv w =
    (Ok (exec E argv (w_host w)).1,
     set_host (exec E argv (w_host w)).2 (emit (EvExec argv) w)).
Proof.
  intros H. unfold subprocess_run, check_program, bind, log, modify, ret.
  rewrite H. simpl. by destruct (exec E argv (w_host w)).
Qed.

Lemma subprocess_call_tool E argv w :
  String.prefix "/" (List.hd EmptyString argv) = false →
  subprocess_call E argv w =
    (Ok (returncode (exec E argv (w_host w)).1),
     set_host (exec E argv (w_host w)).2 (emit (EvExec argv) w)).
Proof.
  intros H. unfold subprocess_call, bind. by rewrite subprocess_run_tool.
Qed.

Lemma bind_ext {A B} (m : M A) (k1 k2 : A → M B) w :
  (∀ a w', k1 a w' = k2 a w') → bind m k1 w = bind m k2 w.
Proof. intros H. unfold bind. destruct (m w) as [[a|e] w']; [apply H | done]. Qed.

(** The exit status of a tool is the only thing [with_exit_codes] changes,
    so a caller that drops it cannot tell the difference. *)
Lemma subprocess_call_discard {B} E code argv (k : M B) w :
  (subprocess_call (with_exit_codes code E) argv ;; k) w
  = (subprocess_call E argv ;; k) w.
Proof.
  unfold subprocess_call, subprocess_run, bind, log, modify, ret. simpl.
  destruct (check_program _ _) as [[[]|e] w']; [|done].
  by destruct (exec E argv (w_host w')).
Qed.

(** ** Teardown (C1) *)

Lemma unlink_absent p w :
  lookup_node (wfs w) p = None →
  unlink p w = (Raise FileNotFoundError, emit (EvUnlink p) w).
Proof.
  intros H. unfold unlink, bind, log, modify, fs_op, py_unlink. simpl.
  change (wfs (emit (EvUnlink p) w)) with (wfs w). by rewrite H.
Qed.

(** C1 (the code departs from the specification).  When the binary
    [/usr/bin/ipmi_exporter] is already absent, [_on_stop] does not
    succeed: the first deletion of [_uninstall_ipmi_exporter] raises
    [FileNotFoundError], for every behaviour of the host tools that leaves
    the files alone. *)
Theorem stop_fails_when_binary_absent E w :
  (∀ verb h, fs (exec E ["systemctl"; verb; "ipmi_exporter"] h).2 = fs h) →
  wfs w !! bin_path = None →
  (_on_stop E w).1 = Raise FileNotFoundError.
Proof.
  intros Hfs Hbin. unfold _on_stop, bind.
  rewrite !subprocess_call_tool by done. simpl.
  unfold _uninstall_ipmi_exporter, bind.
  rewrite unlink_absent; [done|].
  unfold wfs. simpl. rewrite !Hfs. exact Hbin.
Qed.

Lemma ref_systemctl_keeps_files verb h :
  fs (exec Ref.env ["systemctl"; verb; "ipmi_exporter"] h).2 = fs h.
Proof.
  simpl. unfold Ref.exec, Ref.systemctl, Ref.done. simpl.
  repeat case_match; done.
Qed.

Lemma stop_fails_when_binary_absent_witness :
  wfs Examples.stopped !! bin_path = None ∧
  (_on_stop Ref.env Examples.stopped).1 = Raise FileNotFoundError.
Proof.
  split; [by vm_compute|].
  apply (stop_fails_when_binary_absent Ref.env Examples.stopped).
  - apply ref_systemctl_keeps_files.
  - by vm_compute.
Defined.

(** The deletions that go through a host tool do tolerate absence: with
    the account already removed, the teardown of an installed machine
    returns. *)
Example stop_tolerates_absent_account :
  let w := set_host (Ref.set_groups ∅ (Ref.set_users ∅ (w_host Ref.installed)))
                    Ref.installed in
  (_on_stop Ref.env w).1 = Ok tt.
Proof. by vm_compute. Qed.

(** ** The dependency package (C2) *)


Lemma install_freeipmi_events E w :
  new_events w (_install_freeipmi E w).2 =
    if PyStr.contains "no packages found"
         (PyStr.lower (stdout (exec E dpkg_query (w_host w)).1))
    then [EvExec dpkg_query]
    else [EvExec dpkg_query; EvExec apt_install].
Proof.
  unfold _install_freeipmi, bind.
  rewrite subprocess_run_tool by done.
  destruct (PyStr.contains _ _); simpl.
  - apply new_events_app. done.
  - rewrite subprocess_call_tool by done. simpl.
    apply new_events_app. simpl. by rewrite <- app_assoc.
Qed.

(** C2 (the code departs from the specification).  Whenever the output of
    the package query lacks the phrase [no packages found], and so in
    particular when it lists the package as installed, [_install_freeipmi]
    runs the installer. *)
Theorem install_freeipmi_runs_installer E w :
  PyStr.contains "no packages found"
    (PyStr.lower (stdout (exec E dpkg_query (w_host w)).1)) = false →
  new_events w (_install_freeipmi E w).2 = [EvExec dpkg_query; EvExec apt_install].
Proof. intros H. by rewrite install_freeipmi_events, H. Qed.

Lemma install_freeipmi_runs_installer_witness :
  "freeipmi" ∈ packages (w_host Ref.installed) ∧
  stdout (exec Ref.env dpkg_query (w_host Ref.installed)).1
    = "ii  freeipmi  1.6.9-2  amd64  GNU IPMI - tools" ∧
  new_events Ref.installed (_install_freeipmi Ref.env Ref.installed).2
    = [EvExec dpkg_query; EvExec apt_install].
Proof.
  split; [by vm_compute|]. split; [by vm_compute|].
  apply (install_freeipmi_runs_installer Ref.env Ref.installed).
  by vm_compute.
Defined.

(** The installer is skipped exactly when standard output carries the
    phrase, and the state reached does not change when the step is
    repeated with tools that install at most once. *)
Lemma install_freeipmi_skips E w :
  PyStr.contains "no packages found"
    (PyStr.lower (stdout (exec E dpkg_query (w_host w)).1)) = true →
  new_events w (_install_freeipmi E w).2 = [EvExec dpkg_query].
Proof. intros H. by rewrite install_freeipmi_events, H. Qed.

Example install_freeipmi_twice :
  let w1 := (_install_freeipmi Ref.env Ref.fresh).2 in
  let w2 := (_install_freeipmi Ref.env w1).2 in
  elements (packages (w_host w1)) = ["freeipmi"] ∧
  elements (packages (w_host w2)) = ["freeipmi"] ∧
  map_to_list (fs (w_host w2)) = map_to_list (fs (w_host w1)).
Proof. vm_compute. done. Qed.

(** ** The reported version (C3) *)

Lemma set_charm_version_eq E w :
  is_Some (match wfs w !! bin_path with Some (File c) => Some c | _ => None end) →
  let p := (exec E ["/usr/bin/ipmi_exporter"; "--version"] (w_host w)).1 in
  let w' := set_host (exec E ["/usr/bin/ipmi_exporter"; "--version"] (w_host w)).2
                     (emit (EvExec ["/usr/bin/ipmi_exporter"; "--version"]) w) in
  _set_charm_version E w =
    match Re.search version_pattern (stdout p) with
    | Some v => (Ok tt, set_version v w')
    | None => (Raise AttributeError, w')
    end.
Proof.
  intros Hbin p w'. unfold _set_charm_version, bind, subprocess_run, check_program,
    bind, get, log, modify, ret, raise. simpl.
  change (Path "/usr/bin/ipmi_exporter") with bin_path.
  change (wfs (emit _ w)) with (wfs w).
  change (lookup_node (wfs w) bin_path) with (wfs w !! bin_path).
  destruct (wfs w !! bin_path) as [[c|]|]; try by destruct Hbin.
  subst p w'. simpl. destruct (exec E _ (w_host w)) as [p h]. simpl.
  by destruct (Re.search version_pattern (stdout p)).
Qed.

(** When nothing in the output matches, the failure is surfaced and no
    version is set. *)
Lemma set_charm_version_no_match E w :
  is_Some (match wfs w !! bin_path with Some (File c) => Some c | _ => None end) →
  Re.search version_pattern
    (stdout (exec E ["/usr/bin/ipmi_exporter"; "--version"] (w_host w)).1) = None →
  (_set_charm_version E w).1 = Raise AttributeError ∧
  w_version (_set_charm_version E w).2 = w_version w.
Proof. intros Hbin H. rewrite set_charm_version_eq by done. by rewrite H. Qed.

(** C3 (the code departs from the specification).  The banner
    [ipmi_exporter (build 20240101)] contains no dotted triple, yet
    [_set_charm_version] returns normally and reports [20240101]: the
    dots of the pattern are not escaped and match any character. *)
Theorem set_charm_version_accepts_undotted :
  stdout (exec Ref.env ["/usr/bin/ipmi_exporter"; "--version"]
               (w_host Examples.odd_binary)).1 = Examples.odd_banner ∧
  Re.search dotted_triple Examples.odd_banner = None ∧
  (_set_charm_version Ref.env Examples.odd_binary).1 = Ok tt ∧
  w_version (_set_charm_version Ref.env Examples.odd_binary).2 = Some "20240101".
Proof. by vm_compute. Qed.

(** On the banner of the specification both patterns agree. *)
Example set_charm_version_banner :
  (_set_charm_version Ref.env Ref.installed).1 = Ok tt ∧
  w_version (_set_charm_version Ref.env Ref.installed).2 = Some "1.9.1" ∧
  Re.search dotted_triple Ref.banner = Some "1.9.1".
Proof. by vm_compute. Qed.

(** Where several dotted triples or digit runs occur, the leftmost match
    of the unescaped pattern is reported. *)
Example search_leftmost :
  Re.search version_pattern "go1 21 5 ipmi_exporter 1.9.1" = Some "1 21 5" ∧
  Re.search dotted_triple "go1 21 5 ipmi_exporter 1.9.1" = Some "1.9.1".
Proof. by vm_compute. Qed.


(** ** Temporary files of the download (C4) *)

Lemma remove_tree_lookup_ne d f q :
  ¬ d `prefix_of` q → remove_tree d f !! q = f !! q.
Proof.
  intros Hq. unfold remove_tree. rewrite map_lookup_filter.
  destruct (f !! q) as [n|]; simpl; [|done].
  by rewrite option_guard_True.
Qed.

Lemma remove_tree_lookup d f q :
  d `prefix_of` q → remove_tree d f !! q = None.
Proof.
  intros Hq. unfold remove_tree. rewrite map_lookup_filter.
  destruct (f !! q) as [n|]; simpl; [|done].
  rewrite option_guard_False; [done|]. simpl. tauto.
Qed.

Lemma make_dirs_lookup_ne d base rel f q :
  d `prefix_of` base → ¬ d `prefix_of` q →
  make_dirs base rel f !! q = f !! q.
Proof.
  revert base f. induction rel as [|c rel IH]; intros base f Hb Hq; simpl; [done|].
  rewrite (IH (base ++ [c])); [|by apply prefix_app_r|done].
  apply lookup_insert_ne. intros <-. apply Hq. by apply prefix_app_r.
Qed.

Lemma extract_member_lookup_ne d f m q :
  ¬ d `prefix_of` q → extract_member d f m !! q = f !! q.
Proof.
  intros Hq. unfold extract_member. destruct m as [rel c]. simpl.
  destruct rel as [|x rel]; [done|].
  rewrite lookup_insert_ne.
  - by apply (make_dirs_lookup_ne d).
  - intros <-. apply Hq. by apply prefix_app_r.
Qed.

Lemma extractall_lookup_ne d ms f q :
  ¬ d `prefix_of` q → foldl (extract_member d) f ms !! q = f !! q.
Proof.
  intros Hq. revert f. induction ms as [|m ms IH]; intros f; simpl; [done|].
  rewrite IH. by apply (extract_member_lookup_ne d).
Qed.

(** The scratch directory never is, or contains, the archive. *)
Lemma scratch_not_archive n :
  ¬ (tmp_root ++ ["charmtmp" +:+ n]) `prefix_of` archive_path.
Proof. intros [k Hk]. vm_compute in Hk. discriminate. Qed.

Lemma mkdtemp_name E f d :
  List.find (λ p, bool_decide (lookup_node f p = None))
            ((λ n, tmp_root ++ ["charmtmp" +:+ n]) <$> tmp_names E) = Some d →
  (∃ n, d = tmp_root ++ ["charmtmp" +:+ n]) ∧ f !! d = None.
Proof.
  intros [Hin Hd]%find_some. apply bool_decide_eq_true in Hd.
  apply list_elem_of_In, list_elem_of_fmap in Hin as (n & -> & _).
  split; [by exists n|]. exact Hd.
Qed.

Lemma py_mkdir_lookup p f f' : py_mkdir p f = Ok f' → f' = <[p := Dir]> f.
Proof. unfold py_mkdir. intros H. repeat case_match; by simplify_eq. Qed.

Lemma scratch_ne_archive n : tmp_root ++ ["charmtmp" +:+ n] ≠ archive_path.
Proof. intros H. by apply (scratch_not_archive n); rewrite H. Qed.

Lemma bin_ne_archive (b : bool) x :
  (if b then bin_path ++ [x] else bin_path) ≠ archive_path.
Proof. destruct b; vm_compute; intros H; discriminate. Qed.

Lemma py_unlink_file p f c :
  lookup_node f p = Some (File c) → py_unlink p f = Ok (delete p f).
Proof. unfold py_unlink. by intros ->. Qed.

Lemma lookup_node_archive f : lookup_node f archive_path = f !! archive_path.
Proof. done. Qed.

Ltac norm_fs :=
  repeat first [progress rewrite wfs_upd_fs in * | progress rewrite wfs_emit in *].

Ltac archive_kept :=
  repeat first
    [ rewrite remove_tree_lookup_ne by apply scratch_not_archive
    | rewrite extractall_lookup_ne by apply scratch_not_archive
    | rewrite lookup_insert_ne by first [apply scratch_ne_archive | apply bin_ne_archive]
    | apply lookup_insert_eq ].

Lemma archive_survives_aux E version arch body w :
  urlopen E (download_url version arch) = DlOk body →
  wp (install_binary E version arch)
     (λ r w', ∀ e, r = Raise e →
        is_Some (match py_create archive_path body (wfs w) with
                 | Ok f => Some f | Raise _ => None end) →
        wfs w' !! archive_path = Some (File body)) w.
Proof.
  intros Hurl. unfold install_binary, urlretrieve.
  apply wp_bind, wp_bind, wp_log. cbn beta iota. rewrite Hurl.
  wp_run.
  all: norm_fs.
  all: intros e' ? Hcreate; simplify_eq.
  all: try (rewrite H in Hcreate; by destruct Hcreate).
  all: clear Hcreate.
  all: repeat match goal with
       | H : py_create _ _ _ = Ok _ |- _ => apply py_create_lookup in H; subst
       | H : py_mkdir _ _ = Ok _ |- _ => apply py_mkdir_lookup in H; subst
       | H : List.find _ _ = Some _ |- _ => apply mkdtemp_name in H as [[? ->] ?]
       end.
  all: norm_fs.
  all: try match goal with
           | H : py_unlink _ _ = Raise _ |- _ =>
               rewrite (py_unlink_file _ _ body) in H; [discriminate|];
               rewrite lookup_node_archive
           end.
  all: by archive_kept.
Qed.



Ltac norm_trace :=
  repeat first [rewrite wtrace_upd_fs | rewrite wtrace_emit];
  rewrite <- ?app_assoc; simpl.

(** The scratch directory is gone when the call ends, whatever the
    outcome: this part of the clean-up is unconditional. *)
Lemma scratch_removed E version arch w d :
  EvMkdtemp d ∈ new_events w (install_binary E version arch w).2 →
  wfs (install_binary E version arch w).2 !! d = None.
Proof.
  change (wp (install_binary E version arch)
             (λ _ w', EvMkdtemp d ∈ new_events w w' → wfs w' !! d = None) w).
  unfold install_binary.
  wp_run.
  all: erewrite new_events_app by (norm_trace; reflexivity).
  all: intros Hd; repeat (apply elem_of_cons in Hd as [Hd|Hd]; [try discriminate|]);
       try (by apply elem_of_nil in Hd).
  all: simplify_eq.
  all: repeat match goal with
       | H : List.find _ _ = Some _ |- _ => apply mkdtemp_name in H as [[? ->] ?]
       | H : py_unlink _ _ = Ok _ |- _ =>
           unfold py_unlink in H; repeat case_match; simplify_eq
       end.
  all: norm_fs.
  all: try done.
  all: rewrite ?lookup_delete_ne by (apply not_eq_sym, scratch_ne_archive).
  all: by apply remove_tree_lookup.
Qed.

Lemma py_create_in_dir p data f :
  lookup_node f (parent p) = Some Dir → lookup_node f p ≠ Some Dir →
  py_create p data f = Ok (<[p := File data]> f).
Proof.
  intros Hdir Hp. unfold py_create. rewrite Hdir.
  by destruct (lookup_node f p) as [[]|].
Qed.

(** C4 (the code departs from the specification).  When the download has
    stored the archive and a later step of the download-and-extract phase
    raises (the file is not an archive, no scratch directory can be made,
    extraction fails, the binary cannot be copied), the exception leaves
    [_install_ipmi_exporter] and [/tmp/ipmi-exporter.tar.gz] is still
    there with the downloaded bytes: its deletion is the last statement of
    the phase and is skipped. *)
Theorem archive_survives_failure E version arch listen_address w body e :
  urlopen E (download_url version arch) = DlOk body →
  lookup_node (wfs w) tmp_root = Some Dir →
  wfs w !! archive_path ≠ Some Dir →
  (install_binary E version arch w).1 = Raise e →
  (_install_ipmi_exporter E version arch listen_address w).1 = Raise e ∧
  wfs (_install_ipmi_exporter E version arch listen_address w).2 !! archive_path
    = Some (File body).
Proof.
  intros Hurl Htmp Hnodir Hraise.
  pose proof (archive_survives_aux E version arch body w Hurl) as Haux.
  unfold wp in Haux. specialize (Haux e Hraise).
  rewrite py_create_in_dir in Haux by done.
  unfold _install_ipmi_exporter, bind.
  destruct (install_binary E version arch w) as [[[]|e'] w']; simpl in *; [done|].
  split; [done|]. apply Haux. by eexists.
Qed.

Lemma archive_survives_failure_witness :
  (_install_ipmi_exporter Ref.env "0.0.0" "amd64" "0.0.0.0:9290" Examples.bad_release).1
    = Raise ReadError ∧
  wfs (_install_ipmi_exporter Ref.env "0.0.0" "amd64" "0.0.0.0:9290"
         Examples.bad_release).2 !! archive_path
    = Some (File "<html>not an archive</html>").
Proof.
  apply (archive_survives_failure Ref.env "0.0.0" "amd64" "0.0.0.0:9290"
           Examples.bad_release "<html>not an archive</html>" ReadError).
  - vm_compute. reflexivity.
  - vm_compute. reflexivity.
  - vm_compute. discriminate.
  - vm_compute. reflexivity.
Defined.

(** The case the specification singles out: extraction fails half way.  The
    scratch directory is removed and the archive is left behind. *)
Example extraction_failure_leaves_archive :
  let w' := (_on_install Ref.env Examples.truncated_release).2 in
  (_on_install Ref.env Examples.truncated_release).1 = Raise ReadError ∧
  wfs w' !! archive_path = Some (File Ref.truncated_body) ∧
  wfs w' !! (tmp_root ++ ["charmtmpk3f9x2ab"]) = None ∧
  w_trace w' =
    [ EvUrlretrieve (download_url "0.0.1" "amd64") archive_path;
      EvTarOpen archive_path;
      EvMkdtemp (tmp_root ++ ["charmtmpk3f9x2ab"]);
      EvExtractall (tmp_root ++ ["charmtmpk3f9x2ab"]);
      EvCleanup (tmp_root ++ ["charmtmpk3f9x2ab"]) ].
Proof. vm_compute. done. Qed.

(** When every step succeeds both temporary files are gone. *)
Example install_leaves_no_temporary_files :
  wfs Ref.installed !! archive_path = None ∧
  wfs Ref.installed !! (tmp_root ++ ["charmtmpk3f9x2ab"]) = None.
Proof. vm_compute. done. Qed.

(** ** The install sequence as a run of phases *)


Lemma traces_phase_last p m : runs_phase p m → traces m (phase_run [p]).
Proof.
  intros H. eapply traces_wand; [exact H|].
  intros [[]|e] evs [Hall Hok]; simpl.
  - rewrite <- (app_nil_r evs). apply run_cons; auto using run_nil.
  - by apply run_fail.
Qed.

Lemma traces_phase_cons p ps m k :
  runs_phase p m → traces k (phase_run ps) →
  traces (m ;; k) (phase_run (p :: ps)).
Proof.
  intros Hm Hk. apply traces_bind. eapply traces_wand; [exact Hm|].
  intros [[]|e] evs [Hall Hok]; simpl.
  - eapply traces_wand; [exact Hk|]. intros r evs2 Hrun.
    apply run_cons; auto.
  - by apply run_fail.
Qed.

Lemma install_phase_run E version arch listen_address :
  traces (_install_ipmi_exporter E version arch listen_address) (phase_run all_phases).
Proof.
  unfold _install_ipmi_exporter, all_phases.
  repeat (apply traces_phase_cons;
          [first [ apply binary_phase | apply freeipmi_phase | apply account_phase
                 | apply config_phase | apply grant_phase | apply unit_phase ] |]).
  apply traces_phase_last, sysconfig_phase.
Qed.













(** The provisioning sequence on its own, for all arguments. *)
Lemma install_sequence_order E version arch listen_address w :
  let r := _install_ipmi_exporter E version arch listen_address w in
  w_trace r.2 = w_trace w ++ new_events w r.2 ∧
  phase_run all_phases r.1 (new_events w r.2).
Proof.
  intros r.
  destruct (install_phase_run E version arch listen_address w) as (evs' & Ht & Hrun).
  fold r in Ht, Hrun.
  assert (new_events w r.2 = evs') as -> by (by apply new_events_app).
  done.
Qed.




(** The order of the operations of one successful install. *)
Example install_phases :
  omap phase_of (new_events Ref.fresh
    (_install_ipmi_exporter Ref.env "1.9.1" "amd64" "0.0.0.0:9290" Ref.fresh).2)
  = replicate 7 PBinary ++ replicate 2 PDependency ++ replicate 2 PAccount ++
    replicate 2 PConfig ++ replicate 2 PGrant ++ replicate 3 PUnit ++
    replicate 7 PSysconfig.
Proof. vm_compute. reflexivity. Qed.
(** ** The privilege grant (C6, C7) *)




(** Creating a file and writing to it: the outcome of [open] decides, and
    on success the file holds exactly the data. *)
Lemma create_and_write p data w :
  (open_w p ;; file_write p data) w =
    match py_create p EmptyString (wfs w) with
    | Ok f => (Ok tt, upd_fs (λ _, <[p := File data]> f)
                        (emit (EvWrite p data) (emit (EvOpenW p) w)))
    | Raise e => (Raise e, emit (EvOpenW p) w)
    end.
Proof.
  unfold open_w, file_write, bind, log, modify, fs_op. simpl.
  rewrite wfs_emit. destruct (py_create p EmptyString (wfs w)) as [f|e] eqn:Hc; [|done].
  f_equal. unfold upd_fs, set_host, set_fs, emit, wfs. simpl. do 3 f_equal.
  unfold py_append.
  assert (f !! p = Some (File EmptyString)) as ->.
  { unfold py_create in Hc. repeat case_match; simplify_eq; apply lookup_insert_eq. }
  by rewrite append_nil.
Qed.


Lemma sudoers_parse :
  Sudoers.parse sudoers_rule =
    [Some (Sudoers.Rule "ipmi_exporter" "ALL" "NOPASSWD" Sudoers.allow_list)].
Proof. vm_compute. reflexivity. Qed.

(** C6. Whenever [_create_sudoers_file_for_ipmi_exporter] returns, the
    grant file holds the fixed rule text; read as a sudoers rule it
    gives the account [ipmi_exporter] password-free execution of exactly
    the seven helper programs of the allow-list, none of which is [ALL]. *)
Theorem sudoers_grant_is_allow_list (w : world) :
  (_create_sudoers_file_for_ipmi_exporter w).1 = Ok tt →
  wfs (_create_sudoers_file_for_ipmi_exporter w).2 !! sudoers = Some (File sudoers_rule) ∧
  Sudoers.parse sudoers_rule =
    [Some (Sudoers.Rule "ipmi_exporter" "ALL" "NOPASSWD" Sudoers.allow_list)] ∧
  Sudoers.allow_list =
    [ "/usr/sbin/ipmimonitoring"; "/usr/sbin/ipmi-sensors"; "/usr/sbin/ipmi-dcmi";
      "/usr/sbin/ipmi-raw"; "/usr/sbin/bmc-info"; "/usr/sbin/ipmi-chassis";
      "/usr/sbin/ipmi-sel" ] ∧
  "ALL" ∉ Sudoers.allow_list.
Proof.
  unfold _create_sudoers_file_for_ipmi_exporter. rewrite create_and_write.
  destruct (py_create sudoers EmptyString (wfs w)) as [f|e]; [|done].
  intros _. split; [|split; [apply sudoers_parse|split; [done|]]].
  - simpl. rewrite wfs_upd_fs. apply lookup_insert_eq.
  - unfold Sudoers.allow_list. intros H. repeat (apply elem_of_cons in H as [H|H]; [done|]).
    by apply elem_of_nil in H.
Qed.

Lemma sudoers_grant_is_allow_list_witness :
  (_create_sudoers_file_for_ipmi_exporter Ref.fresh).1 = Ok tt ∧
  wfs (_create_sudoers_file_for_ipmi_exporter Ref.fresh).2 !! sudoers
    = Some (File sudoers_rule).
Proof.
  assert ((_create_sudoers_file_for_ipmi_exporter Ref.fresh).1 = Ok tt) as H
    by (vm_compute; reflexivity).
  split; [exact H|].
  exact (proj1 (sudoers_grant_is_allow_list Ref.fresh H)).
Defined.

(** The observable states of the write, in order. *)
Lemma sudoers_steps_states (w : world) :
  (_create_sudoers_file_for_ipmi_exporter w).1 = Ok tt →
  let w1 := (open_w sudoers w).2 in
  let w2 := (_create_sudoers_file_for_ipmi_exporter w).2 in
  observable_states sudoers_steps w = [w1; w2] ∧
  new_events w w2 = [EvOpenW sudoers; EvWrite sudoers sudoers_rule] ∧
  wfs w1 !! sudoers = Some (File EmptyString) ∧
  wfs w2 !! sudoers = Some (File sudoers_rule).
Proof.
  unfold _create_sudoers_file_for_ipmi_exporter. rewrite create_and_write.
  unfold observable_states, sudoers_steps, open_w, file_write, bind, log, modify, fs_op.
  simpl. rewrite wfs_emit.
  destruct (py_create sudoers EmptyString (wfs w)) as [f|e] eqn:Hc; [|done].
  intros _. simpl. apply py_create_lookup in Hc as ->.
  split; [|split; [|split]].
  - do 2 f_equal. unfold upd_fs, set_host, set_fs, emit, wfs. simpl. do 3 f_equal.
    unfold py_append. rewrite lookup_insert_eq.
    by rewrite append_nil.
  - apply new_events_app. simpl. by rewrite <- app_assoc.
  - rewrite wfs_upd_fs. apply lookup_insert_eq.
  - rewrite wfs_upd_fs. apply lookup_insert_eq.
Qed.

Lemma create_sudoers_is_steps w :
  _create_sudoers_file_for_ipmi_exporter w = seq_steps sudoers_steps w.
Proof. reflexivity. Qed.

Lemma create_sudoers_fresh :
  (_create_sudoers_file_for_ipmi_exporter Ref.fresh).1 = Ok tt.
Proof. vm_compute. reflexivity. Qed.

(** C7 as stated fails: on a fresh machine the grant file exists, empty,
    after the first step, which is neither its earlier state (absent) nor
    its final content; no temporary file is written and nothing is renamed. *)
Lemma sudoers_not_replaced_atomically :
  ¬ replaced_atomically sudoers sudoers_steps Ref.fresh.
Proof.
  intros H.
  destruct (sudoers_steps_states Ref.fresh create_sudoers_fresh) as (Hobs & _ & H1 & H2).
  destruct (H (open_w sudoers Ref.fresh).2) as [Hold|Hnew].
  - rewrite Hobs. left.
  - rewrite H1 in Hold. vm_compute in Hold. discriminate.
  - rewrite <- create_sudoers_is_steps, H1, H2 in Hnew. vm_compute in Hnew. discriminate.
Qed.

(** C7, as the code has it.  The grant file is written in place: when
    [_create_sudoers_file_for_ipmi_exporter] returns it has performed two
    operations, opening the grant file itself for writing and writing the
    rule to it; after the first the file exists and is empty, after the
    second it holds the whole rule. *)
Theorem sudoers_written_in_place (w : world) :
  (_create_sudoers_file_for_ipmi_exporter w).1 = Ok tt →
  let w1 := (open_w sudoers w).2 in
  let w2 := (_create_sudoers_file_for_ipmi_exporter w).2 in
  observable_states sudoers_steps w = [w1; w2] ∧
  new_events w w2 = [EvOpenW sudoers; EvWrite sudoers sudoers_rule] ∧
  wfs w1 !! sudoers = Some (File EmptyString) ∧
  wfs w2 !! sudoers = Some (File sudoers_rule).
Proof. apply sudoers_steps_states. Qed.

Lemma sudoers_written_in_place_witness :
  (_create_sudoers_file_for_ipmi_exporter Ref.fresh).1 = Ok tt ∧
  wfs Ref.fresh !! sudoers = None ∧
  wfs (open_w sudoers Ref.fresh).2 !! sudoers = Some (File EmptyString).
Proof.
  assert ((_create_sudoers_file_for_ipmi_exporter Ref.fresh).1 = Ok tt) as H
    by (vm_compute; reflexivity).
  split; [exact H|]. split; [vm_compute; reflexivity|].
  exact (proj1 (proj2 (proj2 (sudoers_written_in_place Ref.fresh H)))).
Defined.
(** ** Rendering the sysconfig file (C8) *)


Lemma lookup_node_snoc f p c : lookup_node f (p ++ [c]) = f !! (p ++ [c]).
Proof. by destruct p. Qed.

Lemma render_sysconfig_replaces_aux E context w :
  wp (_render_sysconfig E context)
     (λ r w', r = Ok tt →
        ∃ src text,
          wfs w !! template_path E = Some (File src) ∧
          jinja_render E src context = Ok text ∧
          wfs w' !! sysconfig_path = Some (File text)) w.
Proof.
  unfold _render_sysconfig.
  wp_run; try (intros ?; discriminate).
  all: intros _; rewrite ?wfs_upd_fs, ?wfs_emit in *.
  all: repeat match goal with
       | H : py_create _ _ _ = Ok _ |- _ => apply py_create_lookup in H; subst
       end.
  all: match goal with
       | H : lookup_node _ (_ ++ [_]) = Some (File ?s),
         Hc : jinja_compile _ ?s = Ok ?c, H' : ?c _ = Ok ?t |- _ =>
           exists s, t; rewrite lookup_node_snoc in H;
           split; [|split; [unfold jinja_render; rewrite Hc; exact H'|]]
       end.
  all: unfold wfs in *; simpl in *.
  all: try (change sysconfig_path with ["etc"; "sysconfig"; "ipmi_exporter"];
            unfold py_append; rewrite lookup_insert_eq, append_nil;
            apply lookup_insert_eq).
  all: repeat match goal with
       | H : py_mkdir _ _ = Ok _ |- _ => apply py_mkdir_keeps in H
       | H : py_mkdir_parents _ _ = Ok _ |- _ => apply py_mkdir_parents_from_keeps in H
       end.
  all: eauto using keeps_files_trans.
Qed.

(** C8. Whenever [_render_sysconfig] returns, the sysconfig file holds
    exactly the text that the renderer produces from the template and the
    variables; it is a function of these two alone, so nothing of the
    file's earlier content survives. *)
Theorem render_sysconfig_replaces E context w :
  (_render_sysconfig E context w).1 = Ok tt →
  ∃ src text,
    wfs w !! template_path E = Some (File src) ∧
    jinja_render E src context = Ok text ∧
    wfs (_render_sysconfig E context w).2 !! sysconfig_path = Some (File text).
Proof. apply (render_sysconfig_replaces_aux E context w). Qed.

Lemma render_sysconfig_replaces_witness :
  wfs Examples.stale_sysconfig !! sysconfig_path
    = Some (File "listen_address=10.0.0.1:1 EXTRA=stale") ∧
  ∃ src text,
    wfs Examples.stale_sysconfig !! template_path Ref.env = Some (File src) ∧
    jinja_render Ref.env src {[ "listen_address" := Some "0.0.0.0:9290" ]} = Ok text ∧
    wfs (_render_sysconfig Ref.env {[ "listen_address" := Some "0.0.0.0:9290" ]}
           Examples.stale_sysconfig).2 !! sysconfig_path = Some (File text).
Proof.
  split; [vm_compute; reflexivity|].
  apply (render_sysconfig_replaces Ref.env {[ "listen_address" := Some "0.0.0.0:9290" ]}
           Examples.stale_sysconfig).
  vm_compute. reflexivity.
Defined.

(** With the reference template the file then reads
    [listen_address=0.0.0.0:9290], whatever it held before. *)
Example render_sysconfig_round_trip :
  Ref.jinja_render Ref.sysconfig_template {[ "listen_address" := Some "0.0.0.0:9290" ]}
    = Ok "listen_address=0.0.0.0:9290" ∧
  wfs (_render_sysconfig Ref.env {[ "listen_address" := Some "0.0.0.0:9290" ]}
         Examples.stale_sysconfig).2 !! sysconfig_path
    = Some (File "listen_address=0.0.0.0:9290") ∧
  wfs (_render_sysconfig Ref.env {[ "listen_address" := Some "0.0.0.0:9290" ]}
         Ref.installed).2 !! sysconfig_path
    = Some (File "listen_address=0.0.0.0:9290").
Proof. vm_compute. done. Qed.
(** ** Exit statuses of the supervisor (C9) *)

Lemma uninstall_exit_codes E code w :
  _uninstall_ipmi_exporter (with_exit_codes code E) w = _uninstall_ipmi_exporter E w.
Proof.
  unfold _uninstall_ipmi_exporter.
  do 5 (apply bind_ext; intros ? ?).
  rewrite subprocess_call_discard. apply bind_ext; intros ? ?.
  apply subprocess_call_discard.
Qed.

(** C9, as the code has it.  The handlers drop the exit status of every
    supervisor command: changing the statuses the tools return changes
    neither the outcome of [_on_start], [_on_stop] and [_on_config_changed]
    nor the state they leave.  So a handler that returns when the
    commands succeed returns as well when they fail; and whenever
    [_on_start] returns it reports the daemon as started, whatever
    [systemctl start] answered. *)
Theorem supervisor_exit_status_dropped E code w :
  _on_start (with_exit_codes code E) w = _on_start E w ∧
  _on_stop (with_exit_codes code E) w = _on_stop E w ∧
  _on_config_changed (with_exit_codes code E) w = _on_config_changed E w ∧
  ((_on_start E w).1 = Ok tt →
   (_on_start (with_exit_codes code E) w).1 = Ok tt ∧
   w_status (_on_start (with_exit_codes code E) w).2
     = ActiveStatus "ipmi-exporter started").
Proof.
  assert (_on_start (with_exit_codes code E) w = _on_start E w) as Hstart
    by (unfold _on_start; apply subprocess_call_discard).
  split; [exact Hstart|]. split; [|split].
  - unfold _on_stop. rewrite subprocess_call_discard. apply bind_ext; intros ? ?.
    rewrite subprocess_call_discard. apply bind_ext; intros ? ?.
    apply uninstall_exit_codes.
  - unfold _on_config_changed. apply bind_ext; intros la ?.
    change (_render_sysconfig (with_exit_codes code E)) with (_render_sysconfig E).
    apply bind_ext; intros ? ?.
    apply subprocess_call_discard.
  - rewrite Hstart. intros Hok. split; [exact Hok|].
    revert Hok. unfold _on_start, bind.
    destruct (subprocess_call E ["systemctl"; "start"; "ipmi_exporter"] w)
      as [[z|e] w']; [done|discriminate].
Qed.

Lemma supervisor_exit_status_dropped_witness :
  (_on_start (with_exit_codes (λ _ _, 1%Z) Ref.env) Ref.installed).1 = Ok tt ∧
  w_status (_on_start (with_exit_codes (λ _ _, 1%Z) Ref.env) Ref.installed).2
    = ActiveStatus "ipmi-exporter started".
Proof.
  apply (proj2 (proj2 (proj2
           (supervisor_exit_status_dropped Ref.env (λ _ _, 1%Z) Ref.installed)))).
  vm_compute. reflexivity.
Defined.

(** C9 as stated fails: on a machine where the unit is not registered the
    supervisor refuses to start it (exit status 5), and [_on_start]
    nevertheless returns normally with the status [ipmi-exporter started]. *)
Lemma start_failure_not_reported :
  returncode (exec Ref.env ["systemctl"; "start"; "ipmi_exporter"] (w_host Ref.fresh)).1 = 5%Z ∧
  unit_active (w_host (_on_start Ref.env Ref.fresh).2) = false ∧
  (_on_start Ref.env Ref.fresh).1 = Ok tt ∧
  w_status (_on_start Ref.env Ref.fresh).2 = ActiveStatus "ipmi-exporter started".
Proof. by vm_compute. Qed.
Lemma port_eq (w : world) :
  port w = match w_config w !! "listen-address" with
           | None => (Raise AttributeError, w)
           | Some s => match PyStr.split ":" s !! 1 with
                       | Some p => (Ok p, w)
                       | None => (Raise IndexError, w)
                       end
           end.
Proof.
  unfold port, bind, get, raise, ret.
  destruct (w_config w !! "listen-address") as [s|]; [|done].
  by destruct (PyStr.split ":" s !! 1).
Qed.

(** C10. The [port] property is partial.  With [listen-address] unset it
    raises [AttributeError]; with a value that has no colon it raises
    [IndexError]; with a value that has one it returns the text between
    the first colon and the second (or the end), whatever that text is:
    nothing checks that it is a number. *)
Theorem port_partial (w : world) :
  (w_config w !! "listen-address" = None → port w = (Raise AttributeError, w)) ∧
  (∀ s, w_config w !! "listen-address" = Some s →
        PyStr.has_char ":" s = false → port w = (Raise IndexError, w)) ∧
  (∀ a b rest, w_config w !! "listen-address" = Some (a +:+ ":" +:+ b +:+ rest) →
        PyStr.has_char ":" a = false → PyStr.has_char ":" b = false →
        (rest = EmptyString ∨ ∃ r, rest = String ":" r) →
        port w = (Ok b, w)).
Proof.
  rewrite port_eq. split; [|split].
  - by intros ->.
  - intros s -> Hs. by rewrite split_no_sep.
  - intros a b rest -> Ha Hb Hrest.
    change (a +:+ ":" +:+ b +:+ rest) with (a +:+ String ":" (b +:+ rest)).
    rewrite split_at_sep by done. simpl.
    destruct Hrest as [->|[r ->]].
    + rewrite append_empty_r. by rewrite split_no_sep.
    + by rewrite split_at_sep.
Qed.

Lemma port_partial_witness : port Ref.fresh = (Ok "9290", Ref.fresh).
Proof.
  apply (proj2 (proj2 (port_partial Ref.fresh)) "0.0.0.0" "9290" EmptyString).
  - vm_compute. reflexivity.
  - reflexivity.
  - reflexivity.
  - left. reflexivity.
Defined.

Example port_not_numeric :
  (port (Ref.world_of Ref.fresh_host (Ref.config "1.9.1" "localhost:http:extra"))).1
    = Ok "http" ∧
  (port (Ref.world_of Ref.fresh_host (Ref.config "1.9.1" "9290"))).1
    = Raise IndexError ∧
  (port (Ref.world_of Ref.fresh_host ∅)).1 = Raise AttributeError.
Proof. vm_compute. done. Qed.

(** * Further properties of the code *)

(** ** The pattern search *)

Lemma match_here_plus a p c s :
  Re.match_here (Re.Plus a :: p) (String c s) =
    if Re.atom_ok a c then
      match Re.match_here (Re.Plus a :: p) s with
      | Some m => Some (String c m)
      | None => String c <$> Re.match_here p s
      end
    else None.
Proof. reflexivity. Qed.

Lemma match_here_plus_empty a p : Re.match_here (Re.Plus a :: p) EmptyString = None.
Proof. reflexivity. Qed.

(** What the matcher returns is a match and a prefix of the text. *)
Lemma match_here_sound p s m :
  Re.match_here p s = Some m → matches p m ∧ ∃ rest, s = m +:+ rest.
Proof.
  revert s m. induction p as [|[a|a] p IH]; intros s m.
  - simpl. intros [= <-]. split; [constructor | by exists s].
  - destruct s as [|c s]; simpl; [done|].
    destruct (Re.atom_ok a c) eqn:Hc; [|done].
    destruct (Re.match_here p s) as [m'|] eqn:Hm; simpl; [|done].
    intros [= <-]. destruct (IH _ _ Hm) as [Hmatch [rest ->]].
    split; [by constructor | by exists rest].
  - revert m. induction s as [|c s IHs]; intros m; [done|].
    rewrite match_here_plus.
    destruct (Re.atom_ok a c) eqn:Hc; [|done].
    destruct (Re.match_here (Re.Plus a :: p) s) as [m'|] eqn:Hm.
    + intros [= <-]. destruct (IHs _ eq_refl) as [Hmatch [rest ->]].
      split; [by apply matches_plus_more | by exists rest].
    + destruct (Re.match_here p s) as [m'|] eqn:Hm'; simpl; [|done].
      intros [= <-]. destruct (IH _ _ Hm') as [Hmatch [rest ->]].
      split; [by apply matches_plus_last | by exists rest].
Qed.

(** Backtracking is complete: if some prefix of the text is a match, the
    matcher finds one. *)
Lemma match_here_complete p m rest :
  matches p m → is_Some (Re.match_here p (m +:+ rest)).
Proof.
  induction 1 as [|a c p m Hc Hm IH|a c p m Hc Hm IH|a c p m Hc Hm IH].
  - by eexists.
  - change (String c m +:+ rest) with (String c (m +:+ rest)). simpl.
    rewrite Hc. destruct IH as [m' ->]. by eexists.
  - change (String c m +:+ rest) with (String c (m +:+ rest)).
    rewrite match_here_plus, Hc.
    destruct (Re.match_here (Re.Plus a :: p) (m +:+ rest)); [by eexists|].
    destruct IH as [m' ->]. by eexists.
  - change (String c m +:+ rest) with (String c (m +:+ rest)).
    rewrite match_here_plus, Hc. destruct IH as [m' ->]. by eexists.
Qed.

Lemma search_sound p s m :
  Re.search p s = Some m → matches p m ∧ ∃ pre post, s = pre +:+ m +:+ post.
Proof.
  induction s as [|c s IH]; simpl.
  - destruct (Re.match_here p EmptyString) as [m'|] eqn:Hm; [|done].
    intros [= <-]. destruct (match_here_sound _ _ _ Hm) as [? [rest ->]].
    split; [done|]. by exists EmptyString, rest.
  - destruct (Re.match_here p (String c s)) as [m'|] eqn:Hm.
    + intros [= <-]. destruct (match_here_sound _ _ _ Hm) as [? [rest Hrest]].
      split; [done|]. by exists EmptyString, rest.
    + intros H. destruct (IH H) as [? (pre & post & ->)].
      split; [done|]. by exists (String c pre), post.
Qed.

Lemma search_complete p pre m post :
  matches p m → is_Some (Re.search p (pre +:+ m +:+ post)).
Proof.
  intros Hm. induction pre as [|c pre IH].
  - change (EmptyString +:+ m +:+ post) with (m +:+ post).
    destruct (match_here_complete p m post Hm) as [m' Hm'].
    destruct (m +:+ post); simpl; rewrite Hm'; by eexists.
  - change (String c pre +:+ m +:+ post) with (String c (pre +:+ m +:+ post)).
    simpl. destruct (Re.match_here p _); [by eexists | exact IH].
Qed.

Lemma digits_cons c s :
  digits (String c s) = true →
  PyStr.is_digit c = true ∧ (s = EmptyString ∨ digits s = true).
Proof.
  simpl. destruct s as [|c' s]; [by intros ->; auto|].
  intros [? ?]%andb_prop. auto.
Qed.

Lemma matches_digits d p m :
  digits d = true → matches p m → matches (Re.Plus Re.Digit :: p) (d +:+ m).
Proof.
  induction d as [|c d IH]; [done|]. intros [Hc [->|Hd]]%digits_cons Hm.
  - by apply matches_plus_last.
  - change (String c d +:+ m) with (String c (d +:+ m)).
    apply matches_plus_more; auto.
Qed.

Lemma matches_digits_end d :
  digits d = true → matches [Re.Plus Re.Digit] d.
Proof.
  induction d as [|c d IH]; [done|]. intros [Hc [->|Hd]]%digits_cons.
  - apply matches_plus_last; [done | constructor].
  - apply matches_plus_more; auto.
Qed.

(** A dotted triple is matched by the pattern of the charm. *)
Lemma dotted_triple_matches a b c :
  digits a = true → digits b = true → digits c = true →
  matches version_pattern (a +:+ "." +:+ b +:+ "." +:+ c).
Proof.
  intros Ha Hb Hc. unfold version_pattern.
  apply matches_digits; [done|].
  change ("." +:+ b +:+ "." +:+ c) with (String "." (b +:+ "." +:+ c)).
  apply matches_one; [done|].
  apply matches_digits; [done|].
  change ("." +:+ c) with (String "." c).
  apply matches_one; [done|].
  by apply matches_digits_end.
Qed.

(** The shape of what the pattern matches: it begins with a digit, ends
    with a digit, has at least five characters and no newline. *)
Lemma matches_first_digit p m :
  matches (Re.Plus Re.Digit :: p) m →
  ∃ c m', m = String c m' ∧ PyStr.is_digit c = true.
Proof. inversion 1; subst; eauto. Qed.

Lemma matches_length p m : matches p m → length p ≤ String.length m.
Proof. induction 1; simpl in *; lia. Qed.

Lemma atom_ok_newline a :
  Re.atom_ok a Re.newline = true → a = Re.Char Re.newline.
Proof.
  destruct a as [| |d]; [by vm_compute | by vm_compute |].
  unfold Re.atom_ok. intros H%Ascii.eqb_eq. by subst.
Qed.

Lemma matches_no_newline p m :
  Forall (λ i, i ≠ Re.One (Re.Char Re.newline) ∧ i ≠ Re.Plus (Re.Char Re.newline)) p →
  matches p m → PyStr.has_char Re.newline m = false.
Proof.
  intros Hp Hm. induction Hm as [|a c p m Hc Hm IH|a c p m Hc Hm IH|a c p m Hc Hm IH];
    [done|..].
  all: cbn [PyStr.has_char].
  all: destruct (ascii_dec c Re.newline) as [->|_];
       [apply atom_ok_newline in Hc as ->; apply Forall_cons in Hp as [[? ?] _]; done|].
  - apply IH. by apply Forall_cons in Hp as [_ ?].
  - apply IH. by apply Forall_cons in Hp as [_ ?].
  - by apply IH.
Qed.

Lemma matches_last_digit p m :
  matches p m → p ≠ [] → List.last p (Re.One Re.AnyChar) = Re.Plus Re.Digit →
  ∃ m' c, m = m' +:+ String c EmptyString ∧ PyStr.is_digit c = true.
Proof.
  induction 1 as [|a c p m Hc Hm IH|a c p m Hc Hm IH|a c p m Hc Hm IH]; intros Hne Hlast.
  - done.
  - destruct p as [|i p]; [done|].
    destruct IH as (m' & c' & -> & Hd); [done|done|].
    by exists (String c m'), c'.
  - destruct p as [|i p].
    + inversion Hm; subst. simpl in Hlast. simplify_eq. by exists EmptyString, c.
    + destruct IH as (m' & c' & -> & Hd); [done|done|].
      by exists (String c m'), c'.
  - destruct IH as (m' & c' & -> & Hd); [done|done|].
    by exists (String c m'), c'.
Qed.

(** ** The version query *)

Lemma set_charm_version_no_binary E w :
  wfs w !! bin_path = None →
  _set_charm_version E w = (Raise FileNotFoundError, emit (EvExec version_query) w).
Proof.
  intros Hbin. unfold _set_charm_version, bind, subprocess_run, check_program,
    bind, get, log, modify, ret, raise. simpl.
  change (Path "/usr/bin/ipmi_exporter") with bin_path.
  change (wfs (emit _ w)) with (wfs w).
  change (lookup_node (wfs w) bin_path) with (wfs w !! bin_path).
  by rewrite Hbin.
Qed.

Lemma set_charm_version_ok_binary E w :
  (_set_charm_version E w).1 = Ok tt →
  is_Some (match wfs w !! bin_path with Some (File c) => Some c | _ => None end).
Proof.
  unfold _set_charm_version, bind, subprocess_run, check_program,
    bind, get, log, modify, ret, raise. simpl.
  change (Path "/usr/bin/ipmi_exporter") with bin_path.
  change (wfs (emit _ w)) with (wfs w).
  change (lookup_node (wfs w) bin_path) with (wfs w !! bin_path).
  destruct (wfs w !! bin_path) as [[c|]|]; simpl; [by eexists|done|done].
Qed.

(** X1. When [_set_charm_version] returns, the version it has set is a
    piece of the output of the version query; it begins and ends with a
    digit, has at least five characters and contains no newline. *)
Theorem reported_version_shape E w :
  (_set_charm_version E w).1 = Ok tt →
  ∃ v pre post,
    w_version (_set_charm_version E w).2 = Some v ∧
    version_output E w = pre +:+ v +:+ post ∧
    (∃ c v', v = String c v' ∧ PyStr.is_digit c = true) ∧
    (∃ v' c, v = v' +:+ String c EmptyString ∧ PyStr.is_digit c = true) ∧
    5 ≤ String.length v ∧
    PyStr.has_char Re.newline v = false.
Proof.
  intros Hok. pose proof (set_charm_version_ok_binary E w Hok) as Hbin.
  rewrite set_charm_version_eq in Hok |- * by done.
  change (stdout (exec E ["/usr/bin/ipmi_exporter"; "--version"] (w_host w)).1)
    with (version_output E w) in *.
  destruct (Re.search version_pattern (version_output E w)) as [v|] eqn:Hs; [|done].
  destruct (search_sound _ _ _ Hs) as [Hm (pre & post & Hout)].
  exists v, pre, post. split; [done|]. split; [done|].
  split; [by eapply matches_first_digit|].
  split; [by eapply matches_last_digit|].
  split; [by apply matches_length in Hm|].
  eapply matches_no_newline; [|exact Hm].
  unfold version_pattern. repeat constructor; done.
Qed.

Lemma reported_version_shape_witness :
  (_set_charm_version Ref.env Ref.installed).1 = Ok tt ∧
  ∃ v pre post,
    w_version (_set_charm_version Ref.env Ref.installed).2 = Some v ∧
    version_output Ref.env Ref.installed = pre +:+ v +:+ post.
Proof.
  assert ((_set_charm_version Ref.env Ref.installed).1 = Ok tt) as H
    by (vm_compute; reflexivity).
  split; [exact H|].
  destruct (reported_version_shape Ref.env Ref.installed H)
    as (v & pre & post & Hv & Hout & _).
  exists v, pre, post. split; [exact Hv | exact Hout].
Defined.

(** X2. Whenever the output of the version query contains a dotted triple
    of digit runs, and the binary is in place, [_set_charm_version]
    returns and sets a version: the loose pattern never misses a real
    version number. *)
Theorem dotted_triple_is_accepted E w a b c pre post :
  is_Some (match wfs w !! bin_path with Some (File x) => Some x | _ => None end) →
  digits a = true → digits b = true → digits c = true →
  version_output E w = pre +:+ (a +:+ "." +:+ b +:+ "." +:+ c) +:+ post →
  (_set_charm_version E w).1 = Ok tt ∧
  is_Some (w_version (_set_charm_version E w).2).
Proof.
  intros Hbin Ha Hb Hc Hout.
  rewrite set_charm_version_eq by done.
  change (stdout (exec E ["/usr/bin/ipmi_exporter"; "--version"] (w_host w)).1)
    with (version_output E w).
  destruct (search_complete version_pattern pre _ post
              (dotted_triple_matches a b c Ha Hb Hc)) as [v Hv].
  rewrite Hout, Hv. split; [done | by eexists].
Qed.

Lemma dotted_triple_is_accepted_witness :
  (_set_charm_version Ref.env Ref.installed).1 = Ok tt ∧
  is_Some (w_version (_set_charm_version Ref.env Ref.installed).2).
Proof.
  apply (dotted_triple_is_accepted Ref.env Ref.installed "1" "9" "1"
           "ipmi_exporter, version " " (branch: HEAD, revision: 3d4e5f)").
  - vm_compute. by eexists.
  - reflexivity.
  - reflexivity.
  - reflexivity.
  - vm_compute. reflexivity.
Defined.

(** X3. Without the binary the version query is not run at all:
    [_set_charm_version] raises [FileNotFoundError] and leaves the host, the
    status and the version as they were. *)
Theorem version_query_needs_binary E w :
  wfs w !! bin_path = None →
  (_set_charm_version E w).1 = Raise FileNotFoundError ∧
  w_host (_set_charm_version E w).2 = w_host w ∧
  charm_state (_set_charm_version E w).2 = charm_state w.
Proof. intros H. by rewrite set_charm_version_no_binary. Qed.

Lemma version_query_needs_binary_witness :
  (_set_charm_version Ref.env Ref.fresh).1 = Raise FileNotFoundError ∧
  w_host (_set_charm_version Ref.env Ref.fresh).2 = w_host Ref.fresh ∧
  charm_state (_set_charm_version Ref.env Ref.fresh).2 = charm_state Ref.fresh.
Proof.
  apply (version_query_needs_binary Ref.env Ref.fresh). vm_compute. reflexivity.
Defined.

(** X4. When nothing in the output matches the pattern, the failure is
    raised to the caller and no version is set. *)
Theorem unparseable_version_is_raised E w :
  is_Some (match wfs w !! bin_path with Some (File c) => Some c | _ => None end) →
  Re.search version_pattern (version_output E w) = None →
  (_set_charm_version E w).1 = Raise AttributeError ∧
  w_version (_set_charm_version E w).2 = w_version w ∧
  w_status (_set_charm_version E w).2 = w_status w.
Proof.
  intros Hbin H. rewrite set_charm_version_eq by done.
  change (stdout (exec E ["/usr/bin/ipmi_exporter"; "--version"] (w_host w)).1)
    with (version_output E w).
  by rewrite H.
Qed.

Lemma unparseable_version_is_raised_witness :
  (_set_charm_version Ref.env Cases.mute_binary).1 = Raise AttributeError ∧
  w_version (_set_charm_version Ref.env Cases.mute_binary).2
    = w_version Cases.mute_binary ∧
  w_status (_set_charm_version Ref.env Cases.mute_binary).2
    = w_status Cases.mute_binary.
Proof.
  apply (unparseable_version_is_raised Ref.env Cases.mute_binary).
  - vm_compute. by eexists.
  - vm_compute. reflexivity.
Defined.

(** ** The charm's own state *)

Section preserves_rules.

Context {A B C : Type} (proj : world → C).

Lemma preserves_ret (a : A) : preserves proj (ret a).
Proof. done. Qed.

Lemma preserves_raise (e : exn) : preserves proj (raise (A:=A) e).
Proof. done. Qed.

Lemma preserves_get (f : world → A) : preserves proj (get f).
Proof. done. Qed.

Lemma preserves_bind (m : M A) (k : A → M B) :
  preserves proj m → (∀ a, preserves proj (k a)) → preserves proj (bind m k).
Proof.
  intros Hm Hk w. unfold bind. specialize (Hm w).
  destruct (m w) as [[a|e] w1]; simpl in *; [|done].
  by rewrite Hk.
Qed.

Lemma preserves_try_finally (body : M A) (fin : M unit) :
  preserves proj body → preserves proj fin → preserves proj (try_finally body fin).
Proof.
  intros Hb Hf w. unfold try_finally. specialize (Hb w).
  destruct (body w) as [r w1]; simpl in *. specialize (Hf w1).
  destruct (fin w1) as [[[]|e] w2]; simpl in *; congruence.
Qed.

End preserves_rules.

Lemma preserves_modify {C} (proj : world → C) f :
  (∀ w, proj (f w) = proj w) → preserves proj (modify f).
Proof. intros H w. apply H. Qed.

Lemma preserves_fs_op {C} (proj : world → C) f :
  (∀ g w, proj (upd_fs g w) = proj w) → preserves proj (fs_op f).
Proof. intros H w. unfold fs_op. destruct (f (wfs w)); simpl; [apply H | done]. Qed.

Lemma preserves_exec E argv :
  preserves charm_state
    (λ w, let '(p, h) := exec E argv (w_host w) in (Ok p, set_host h w)).
Proof. intros w. by destruct (exec E argv (w_host w)). Qed.

Ltac preserves_step :=
  lazymatch goal with
  | |- preserves _ (bind _ _) => apply preserves_bind; [|intros ?]
  | |- preserves _ (try_finally _ _) => apply preserves_try_finally
  | |- preserves _ (ret _) => apply preserves_ret
  | |- preserves _ (raise _) => apply preserves_raise
  | |- preserves _ (get _) => apply preserves_get
  | |- preserves _ (log _) => apply preserves_modify; done
  | |- preserves _ (modify _) => apply preserves_modify; done
  | |- preserves _ (fs_op _) => apply preserves_fs_op; done
  | |- preserves _ (λ w, let '(_, _) := exec _ _ _ in _) => apply preserves_exec
  | |- preserves _ (if ?b then _ else _) => destruct b
  | |- preserves _ (match ?x with _ => _ end) => destruct x
  | |- preserves _ (?f _ _ _ _) => unfold f
  | |- preserves _ (?f _ _ _) => unfold f
  | |- preserves _ (?f _ _) => unfold f
  | |- preserves _ (?f _) => unfold f
  | |- preserves _ ?f => unfold f
  end; cbn beta iota.

Ltac preserves_run := repeat preserves_step.

(** X5. Provisioning and teardown never touch the charm's own state: the
    configuration, the unit status and the workload version are the same
    after [_install_ipmi_exporter], [_uninstall_ipmi_exporter] and
    [_render_sysconfig] as before, whatever their outcome. *)
Theorem provisioning_keeps_charm_state E version arch listen_address context :
  preserves charm_state (_install_ipmi_exporter E version arch listen_address) ∧
  preserves charm_state (_uninstall_ipmi_exporter E) ∧
  preserves charm_state (_render_sysconfig E context).
Proof. split; [|split]; preserves_run. Qed.

Lemma install_keeps_charm_state E version arch listen_address :
  preserves charm_state (_install_ipmi_exporter E version arch listen_address).
Proof. preserves_run. Qed.

Lemma set_charm_version_state E w :
  let r := _set_charm_version E w in
  w_config r.2 = w_config w ∧ w_status r.2 = w_status w ∧
  match r.1 with
  | Ok _ => is_Some (w_version r.2)
  | Raise _ => w_version r.2 = w_version w
  end.
Proof.
  change (wp (_set_charm_version E)
    (λ r w', w_config w' = w_config w ∧ w_status w' = w_status w ∧
             match r with
             | Ok _ => is_Some (w_version w')
             | Raise _ => w_version w' = w_version w
             end) w).
  unfold _set_charm_version, subprocess_run, check_program.
  wp_run; try done.
  unfold wp. destruct (exec E _ _) as [p h]. simpl.
  destruct (Re.search version_pattern (stdout p)); simpl; [|done].
  split; [done|]. split; [done|]. by eexists.
Qed.

(** X6. What [_on_install] reports.  If it returns, the status is
    [ipmi-exporter installed] and a version is set; if it raises, the
    status stays at [Installing ipmi-exporter] and the version is not
    changed.  The configuration is never changed. *)
Theorem on_install_status E w :
  let r := _on_install E w in
  w_config r.2 = w_config w ∧
  match r.1 with
  | Ok _ => w_status r.2 = ActiveStatus "ipmi-exporter installed" ∧
            is_Some (w_version r.2)
  | Raise _ => w_status r.2 = MaintenanceStatus "Installing ipmi-exporter" ∧
               w_version r.2 = w_version w
  end.
Proof.
  unfold _on_install, bind, modify, get. simpl.
  pose proof (install_keeps_charm_state E
                (py_str (w_config w !! "ipmi-exporter-version")) "amd64"
                (py_str (w_config w !! "listen-address"))
                (set_status (MaintenanceStatus "Installing ipmi-exporter") w)) as Hst.
  unfold charm_state in Hst. simpl in Hst.
  destruct (_install_ipmi_exporter E _ _ _ _) as [[[]|e] w1]; simpl in *.
  - pose proof (set_charm_version_state E w1) as (Hc & Hs & Hv).
    destruct (_set_charm_version E w1) as [[[]|e] w2]; simpl in *.
    + injection Hst as H1 H2 H3. split; [congruence|done].
    + injection Hst as H1 H2 H3. split; [congruence|]. split; congruence.
  - injection Hst as H1 H2 H3. done.
Qed.

(** X7. [_on_upgrade_charm] only asks the binary for its version: it
    attempts exactly that one command; if it returns the status is
    [ipmi-exporter upgraded] and a version is set, and if it raises the
    status stays at [Upgrading ipmi-exporter] with the version unchanged. *)
Theorem on_upgrade_charm_only_queries E w :
  let r := _on_upgrade_charm E w in
  new_events w r.2 = [EvExec version_query] ∧
  w_config r.2 = w_config w ∧
  match r.1 with
  | Ok _ => w_status r.2 = ActiveStatus "ipmi-exporter upgraded" ∧
            is_Some (w_version r.2)
  | Raise _ => w_status r.2 = MaintenanceStatus "Upgrading ipmi-exporter" ∧
               w_version r.2 = w_version w
  end.
Proof.
  change (wp (_on_upgrade_charm E)
    (λ r w', new_events w w' = [EvExec version_query] ∧
             w_config w' = w_config w ∧
             match r with
             | Ok _ => w_status w' = ActiveStatus "ipmi-exporter upgraded" ∧
                       is_Some (w_version w')
             | Raise _ => w_status w' = MaintenanceStatus "Upgrading ipmi-exporter" ∧
                          w_version w' = w_version w
             end) w).
  unfold _on_upgrade_charm, _set_charm_version, subprocess_run, check_program.
  wp_run.
  all: try (unfold wp; destruct (exec E _ _) as [p h]; simpl;
            destruct (Re.search version_pattern (stdout p)); simpl).
  all: split; [by apply new_events_app|].
  all: split; [done|]; split; [done|]; try done.
Qed.

(** ** Accounts, the service unit, teardown and configuration changes *)

Lemma traces_new_events {A} (m : M A) Φ w :
  traces m Φ → Φ (m w).1 (new_events w (m w).2).
Proof.
  intros H. destruct (H w) as (evs & Ht & HΦ).
  by rewrite (new_events_app _ _ _ Ht).
Qed.

(** X8. With the account tools installed, [_create_ipmi_exporter_user_group]
    never raises, whatever exit status they answer with: it runs
    [groupadd ipmi_exporter] and then the [useradd] command for a system
    account without home and login shell, and returns. *)
Theorem create_user_group_always_returns E w :
  (_create_ipmi_exporter_user_group E w).1 = Ok tt ∧
  new_events w (_create_ipmi_exporter_user_group E w).2
    = [EvExec ["groupadd"; "ipmi_exporter"]; EvExec useradd_argv].
Proof.
  unfold _create_ipmi_exporter_user_group, bind.
  change (PyStr.words ("groupadd " +:+ "ipmi_exporter")) with ["groupadd"; "ipmi_exporter"].
  change (PyStr.words _) with useradd_argv.
  rewrite !subprocess_call_tool by done. simpl.
  split; [done|]. apply new_events_app. simpl. by rewrite <- app_assoc.
Qed.


Lemma traces_copyfile src dst (Φ : result unit → list event → Prop) :
  (∀ r, Φ r [EvCopyfile src dst]) → traces (copyfile src dst) Φ.
Proof.
  intros H. unfold copyfile, read_file.
  traces_run; simpl; apply H.
Qed.

Lemma unit_trace E :
  traces (_create_systemd_service_unit E) (λ r evs,
    let copy := EvCopyfile (unit_template E) unit_path in
    let ops := [ copy; EvExec ["systemctl"; "daemon-reload"];
                 EvExec ["systemctl"; "enable"; "ipmi_exporter.service"] ] in
    (∃ rest, evs = copy :: rest) ∧ evs `prefix_of` ops ∧ (r = Ok tt → evs = ops)).
Proof.
  unfold _create_systemd_service_unit.
  apply traces_bind, traces_copyfile.
  intros [[]|e]; cbn beta iota.
  - apply traces_bind, traces_subprocess_call.
    intros [z1|e1]; cbn beta iota.
    + apply traces_bind, traces_subprocess_call.
      intros [z2|e2]; cbn beta iota.
      * apply traces_ret. vm_compute. split; [by eexists|]. split; [by exists []|done].
      * vm_compute. split; [by eexists|]. split; [by exists []|discriminate].
    + vm_compute. split; [by eexists|]. split; [by eexists|discriminate].
  - vm_compute. split; [by eexists|]. split; [by eexists|discriminate].
Qed.

Lemma unit_path_joined :
  Path ("/etc/systemd/system/" +:+ "ipmi_exporter.service") = unit_path.
Proof. vm_compute. reflexivity. Qed.

(** X9. [_create_systemd_service_unit] turns to the supervisor only once
    the unit file is in place.  The copy of the unit file is always its
    first operation and, if it raises, the only one; whatever the
    outcome, the operations attempted are an initial part of: copy,
    [systemctl daemon-reload], [systemctl enable ipmi_exporter.service];
    and a call that returns has attempted all three. *)
Theorem unit_registration_order E w :
  let r := _create_systemd_service_unit E w in
  let copy := EvCopyfile (unit_template E) unit_path in
  let ops := [ copy; EvExec ["systemctl"; "daemon-reload"];
               EvExec ["systemctl"; "enable"; "ipmi_exporter.service"] ] in
  (∃ rest, new_events w r.2 = copy :: rest) ∧
  new_events w r.2 `prefix_of` ops ∧
  (r.1 = Ok tt → new_events w r.2 = ops) ∧
  (∀ e, (copyfile (unit_template E) unit_path w).1 = Raise e →
        r.1 = Raise e ∧ new_events w r.2 = [copy]).
Proof.
  intros r copy ops.
  destruct (traces_new_events _ _ w (unit_trace E)) as (Hfirst & Hpre & Hok).
  split; [exact Hfirst|]. split; [exact Hpre|]. split; [exact Hok|].
  intros e He. subst r.
  unfold _create_systemd_service_unit, bind. rewrite unit_path_joined.
  fold (unit_template E).
  pose proof (traces_new_events _ (λ r evs, evs = [copy]) w
                (traces_copyfile (unit_template E) unit_path _ (λ _, eq_refl))) as Hc.
  simpl in Hc.
  destruct (copyfile (unit_template E) unit_path w) as [[[]|e'] w1];
    simpl in *; [discriminate He|].
  split; [exact He | exact Hc].
Qed.

Lemma unit_registration_order_witness :
  let w := upd_fs (delete (unit_template Ref.env)) Ref.fresh in
  new_events Ref.fresh (_create_systemd_service_unit Ref.env Ref.fresh).2
    = [ EvCopyfile (unit_template Ref.env) unit_path;
        EvExec ["systemctl"; "daemon-reload"];
        EvExec ["systemctl"; "enable"; "ipmi_exporter.service"] ] ∧
  (_create_systemd_service_unit Ref.env w).1 = Raise FileNotFoundError ∧
  new_events w (_create_systemd_service_unit Ref.env w).2
    = [ EvCopyfile (unit_template Ref.env) unit_path ].
Proof.
  intros w. split.
  - apply (proj1 (proj2 (proj2 (unit_registration_order Ref.env Ref.fresh)))).
    vm_compute. reflexivity.
  - apply (proj2 (proj2 (proj2 (unit_registration_order Ref.env w)))).
    vm_compute. reflexivity.
Defined.



Lemma traces_helper E (Φ : result unit → list event → Prop) :
  helper_is_silent E → (∀ r, Φ r []) → traces (set_host_port E) Φ.
Proof.
  intros Hs H w. exists []. rewrite app_nil_r. split; [apply Hs | apply H].
Qed.

Lemma config_changed_trace E :
  helper_is_silent E →
  traces (_on_config_changed E) (λ r evs,
    ∃ evs_r,
      Forall (λ e, phase_of e = Some PSysconfig) evs_r ∧
      ((evs = evs_r ∧ ∃ e, r = Raise e) ∨
       (Exists (λ e, completes PSysconfig e = true) evs_r ∧
        ((evs = evs_r ++ [EvExec restart_command] ∧ ∃ e, r = Raise e) ∨
         evs = evs_r ++ [EvExec restart_command; EvSetHostPort])))).
Proof.
  intros Hs. unfold _on_config_changed.
  apply traces_bind, traces_get; intros la. cbn beta iota.
  apply traces_bind. eapply traces_wand; [apply sysconfig_phase|].
  intros [[]|e] evs_r [Hall Hok]; cbn beta iota.
  - apply traces_bind, traces_subprocess_call. intros [z|e]; cbn beta iota.
    + apply traces_bind, traces_log. cbn beta iota.
      apply traces_helper; [done|]. intros r. exists evs_r. split; [done|].
      right. split; [by apply Hok|]. right. simpl. reflexivity.
    + exists evs_r. split; [done|].
      right. split; [by apply Hok|]. left. split; [done | by exists e].
  - exists evs_r. split; [done|]. left. split; [done | by exists e].
Qed.

(** X11. [_on_config_changed] attempts the restart only after the
    sysconfig file has been written, and at most once; the endpoint
    helper is called only after the restart.  Either rendering failed:
    the handler raises and nothing but sysconfig operations was attempted.
    Or the file was written and one [systemctl restart ipmi_exporter]
    follows: the handler then raises at once if the command cannot be
    run, and otherwise goes on to the endpoint helper. *)
Theorem config_changed_restarts_once E w :
  helper_is_silent E →
  let r := _on_config_changed E w in
  let evs := new_events w r.2 in
  ∃ evs_r,
    Forall (λ e, phase_of e = Some PSysconfig) evs_r ∧
    (EvExec restart_command ∉ evs_r) ∧
    (EvSetHostPort ∉ evs_r) ∧
    ((evs = evs_r ∧ ∃ e, r.1 = Raise e) ∨
     ((∃ text, EvWrite sysconfig_path text ∈ evs_r) ∧
      ((evs = evs_r ++ [EvExec restart_command] ∧ ∃ e, r.1 = Raise e) ∨
       evs = evs_r ++ [EvExec restart_command; EvSetHostPort]))).
Proof.
  intros Hs r evs.
  destruct (traces_new_events _ _ w (config_changed_trace E Hs)) as (evs_r & Hall & Hcases).
  fold r evs in Hcases.
  exists evs_r. split; [done|].
  rewrite Forall_forall in Hall.
  split; [intros Hin; by specialize (Hall _ Hin)|].
  split; [intros Hin; by specialize (Hall _ Hin)|].
  destruct Hcases as [?|[Hex ?]]; [by left|right]. split; [|done].
  apply Exists_exists in Hex as (e & He & Hc).
  destruct e; simpl in Hc; try done.
  apply bool_decide_eq_true in Hc as ->. by eexists.
Qed.

Lemma helper_is_silent_ref : helper_is_silent Ref.env.
Proof.
  intros w. simpl. unfold Ref.set_host_port, bind, port, bind, get, ret, raise. simpl.
  destruct (w_config w !! "listen-address") as [s|]; [|done].
  by destruct (PyStr.split ":" s !! 1).
Qed.

Lemma config_changed_restarts_once_witness :
  ∃ evs_r,
    (EvExec restart_command ∉ evs_r) ∧
    new_events Ref.installed (_on_config_changed Ref.env Ref.installed).2
      = evs_r ++ [EvExec restart_command; EvSetHostPort].
Proof.
  destruct (config_changed_restarts_once Ref.env Ref.installed helper_is_silent_ref)
    as (evs_r & _ & Hno & _ & [[_ [e He]]|[_ [[_ [e He]]|Hevs]]]).
  - exfalso. vm_compute in He. discriminate He.
  - exfalso. vm_compute in He. discriminate He.
  - exists evs_r. split; [exact Hno | exact Hevs].
Defined.

(** ** What teardown removes and what it leaves *)

Lemma preserves_unlink_other p q :
  p ≠ q → preserves (λ w, wfs w !! q) (unlink p).
Proof.
  intros Hne w. unfold unlink, bind, log, modify, fs_op, py_unlink. simpl.
  change (wfs (emit (EvUnlink p) w)) with (wfs w).
  destruct (lookup_node (wfs w) p) as [[c|]|]; simpl; try done.
  change (delete p (wfs w) !! q = wfs w !! q). by apply lookup_delete_ne.
Qed.

Lemma preserves_rmtree_other d q :
  ¬ d `prefix_of` q → preserves (λ w, wfs w !! q) (rmtree d).
Proof.
  intros Hne w. unfold rmtree, bind, log, modify, fs_op, py_rmtree. simpl.
  change (wfs (emit (EvRmtree d) w)) with (wfs w).
  destruct (lookup_node (wfs w) d) as [[c|]|]; simpl; try done.
  change (remove_tree d (wfs w) !! q = wfs w !! q). by apply remove_tree_lookup_ne.
Qed.

Lemma preserves_call_tool {C} (E : environ) (argv : list string)
    (proj : gmap path node → C) :
  tools_keep_files E →
  String.prefix "/" (List.hd EmptyString argv) = false →
  preserves (λ w, proj (wfs w)) (subprocess_call E argv).
Proof.
  intros Hk Hp w. rewrite subprocess_call_tool by done. simpl.
  unfold wfs. simpl. by rewrite Hk.
Qed.

Lemma on_stop_keeps_other E q :
  tools_keep_files E →
  q ∉ provisioned_files → ¬ varlib `prefix_of` q →
  preserves (λ w, wfs w !! q) (_on_stop E).
Proof.
  intros Hk Hq Hvar. unfold provisioned_files in Hq.
  unfold _on_stop, _uninstall_ipmi_exporter.
  repeat lazymatch goal with
    | |- preserves _ (ret _) => apply preserves_ret
    | |- preserves _ (subprocess_call _ _) =>
        apply (preserves_call_tool E _ (λ f, f !! q)); [done | reflexivity]
    | |- preserves _ (unlink _) =>
        apply preserves_unlink_other; intros <-; apply Hq; vm_compute; set_solver
    | |- preserves _ (rmtree _) => apply preserves_rmtree_other; exact Hvar
    | |- preserves _ (bind _ _) => apply preserves_bind; [|intros ?]
    end.
Qed.

(** X12. Teardown touches nothing but its own five paths: with host tools
    that leave the files alone, every path other than the binary, the
    unit file, the sysconfig file, the configuration file and the tree
    under [/var/lib/ipmi_exporter] is the same after [_on_stop] as before,
    whatever the outcome.  In particular the sudoers grant and the
    directory [/etc/ipmi_exporter] stay. *)
Theorem teardown_leaves_other_paths E w q :
  tools_keep_files E →
  q ∉ provisioned_files → ¬ varlib `prefix_of` q →
  wfs (_on_stop E w).2 !! q = wfs w !! q.
Proof. intros Hk Hq Hvar. by apply (on_stop_keeps_other E q). Qed.

Lemma ref_tools_keep_files : tools_keep_files Ref.env.
Proof.
  intros argv h. simpl. unfold Ref.exec.
  destruct argv as [|prog args]; [done|].
  unfold Ref.systemctl, Ref.groupadd, Ref.useradd, Ref.userdel, Ref.groupdel,
    Ref.dpkg, Ref.apt_get, Ref.exporter, Ref.done.
  repeat case_match; done.
Qed.

Lemma teardown_leaves_other_paths_witness :
  wfs (_on_stop Ref.env Ref.installed).2 !! sudoers = Some (File sudoers_rule).
Proof.
  rewrite (teardown_leaves_other_paths Ref.env Ref.installed sudoers ref_tools_keep_files).
  - vm_compute. reflexivity.
  - vm_compute. intros H. repeat (apply elem_of_cons in H as [H|H]; [discriminate H|]).
    by apply elem_of_nil in H.
  - intros [k Hk]. vm_compute in Hk. discriminate Hk.
Defined.

Lemma py_unlink_ok p f f' : py_unlink p f = Ok f' → f' = delete p f.
Proof. unfold py_unlink. intros H. repeat case_match; by simplify_eq. Qed.

Lemma py_rmtree_ok p f f' : py_rmtree p f = Ok f' → f' = remove_tree p f.
Proof. unfold py_rmtree. intros H. repeat case_match; by simplify_eq. Qed.

Lemma py_rmtree_dir p f : lookup_node f p = Some Dir → py_rmtree p f = Ok (remove_tree p f).
Proof. unfold py_rmtree. by intros ->. Qed.

Lemma path_bin : Path "/usr/bin/ipmi_exporter" = bin_path.
Proof. unfold bin_path. reflexivity. Qed.
Lemma path_unit : Path "/etc/systemd/system/ipmi_exporter.service" = unit_path.
Proof. unfold unit_path. reflexivity. Qed.
Lemma path_sysconfig : Path "/etc/sysconfig/ipmi_exporter" = sysconfig_path.
Proof. vm_compute. reflexivity. Qed.
Lemma path_config : Path "/etc/ipmi_exporter/ipmi_exporter.yaml" = config_path.
Proof. unfold config_path. reflexivity. Qed.
Lemma path_varlib : Path "/var/lib/ipmi_exporter/" = varlib.
Proof. vm_compute. reflexivity. Qed.

Lemma wp_call_tool E argv (Φ : result Z → world → Prop) w :
  String.prefix "/" (List.hd EmptyString argv) = false →
  Φ (Ok (returncode (exec E argv (w_host w)).1))
    (set_host (exec E argv (w_host w)).2 (emit (EvExec argv) w)) →
  wp (subprocess_call E argv) Φ w.
Proof. intros Hp H. unfold wp. by rewrite subprocess_call_tool. Qed.

Lemma uninstall_provisioned_aux E w c1 c2 c3 c4 :
  tools_keep_files E →
  wfs w !! bin_path = Some (File c1) →
  wfs w !! unit_path = Some (File c2) →
  wfs w !! sysconfig_path = Some (File c3) →
  wfs w !! config_path = Some (File c4) →
  wfs w !! varlib = Some Dir →
  wp (_uninstall_ipmi_exporter E)
     (λ r w', r = Ok tt ∧
              wfs w' = remove_tree varlib
                         (delete config_path (delete sysconfig_path
                            (delete unit_path (delete bin_path (wfs w)))))) w.
Proof.
  intros Hk H1 H2 H3 H4 H5. unfold _uninstall_ipmi_exporter, unlink, rmtree.
  rewrite path_bin, path_unit, path_sysconfig, path_config, path_varlib.
  repeat lazymatch goal with
    | Hop : py_unlink _ _ = Ok _ |- _ => apply py_unlink_ok in Hop; subst
    | Hop : py_rmtree _ _ = Ok _ |- _ => apply py_rmtree_ok in Hop; subst
    | Hop : py_unlink ?p ?f = Raise _ |- _ =>
        exfalso; norm_fs;
        erewrite (py_unlink_file p) in Hop; [discriminate Hop|];
        change (lookup_node ?g p) with (g !! p);
        rewrite ?lookup_delete_ne by (vm_compute; discriminate); eassumption
    | Hop : py_rmtree ?p ?f = Raise _ |- _ =>
        exfalso; norm_fs;
        rewrite (py_rmtree_dir p) in Hop; [discriminate Hop|];
        change (lookup_node ?g p) with (g !! p);
        rewrite ?lookup_delete_ne by (vm_compute; discriminate); eassumption
    | |- wp (bind _ _) _ _ => apply wp_bind
    | |- wp (log _) _ _ => apply wp_log
    | |- wp (ret _) _ _ => apply wp_ret
    | |- wp (fs_op _) _ _ => apply wp_fs_op; [intros ? Hop|intros ? Hop]
    | |- wp (subprocess_call _ _) _ _ => apply wp_call_tool; [reflexivity|]
    end; cbn beta iota.
  split; [reflexivity|].
  unfold wfs. simpl. rewrite !Hk. reflexivity.
Qed.

(** X13. With [systemctl], [userdel] and [groupdel] installed, on a host
    where the four provisioned files are files and
    [/var/lib/ipmi_exporter] is a directory, [_on_stop] returns and
    leaves none of them: the four files are gone and so is everything
    under the state directory.  (The tools are assumed to leave the files
    alone; the exit status they answer with does not matter.) *)
Theorem teardown_of_provisioned_host E w :
  tools_keep_files E →
  (∀ p, p ∈ provisioned_files → ∃ c, wfs w !! p = Some (File c)) →
  wfs w !! varlib = Some Dir →
  (_on_stop E w).1 = Ok tt ∧
  (∀ p, p ∈ provisioned_files → wfs (_on_stop E w).2 !! p = None) ∧
  (∀ q, varlib `prefix_of` q → wfs (_on_stop E w).2 !! q = None).
Proof.
  intros Hk Hfiles Hvar.
  destruct (Hfiles bin_path) as [c1 H1]; [set_solver|].
  destruct (Hfiles unit_path) as [c2 H2]; [set_solver|].
  destruct (Hfiles sysconfig_path) as [c3 H3]; [set_solver|].
  destruct (Hfiles config_path) as [c4 H4]; [set_solver|].
  unfold _on_stop, bind. rewrite !subprocess_call_tool by reflexivity. simpl.
  match goal with
  | |- context [_uninstall_ipmi_exporter E ?w2] =>
      assert (wfs w2 = wfs w) as Hw2 by (unfold wfs; simpl; by rewrite !Hk);
      pose proof (uninstall_provisioned_aux E w2 c1 c2 c3 c4 Hk) as Haux;
      rewrite Hw2 in Haux; specialize (Haux H1 H2 H3 H4 Hvar);
      unfold wp in Haux; destruct Haux as [Hr Hfs]; rewrite Hr, Hfs
  end.
  split; [done|]. split.
  - intros p Hp. rewrite remove_tree_lookup_ne.
    + unfold provisioned_files in Hp.
      repeat (apply elem_of_cons in Hp as [->|Hp]);
        [..|by apply elem_of_nil in Hp].
      all: rewrite ?lookup_delete_eq; try done.
      all: repeat (rewrite lookup_delete_ne by (vm_compute; discriminate);
                   rewrite ?lookup_delete_eq); done.
    + unfold provisioned_files in Hp.
      repeat (apply elem_of_cons in Hp as [->|Hp]);
        [..|by apply elem_of_nil in Hp].
      all: intros [k Hk']; vm_compute in Hk'; discriminate Hk'.
  - intros q Hq. by apply remove_tree_lookup.
Qed.

Lemma teardown_of_provisioned_host_witness :
  (_on_stop Ref.env Ref.installed).1 = Ok tt ∧
  (∀ p, p ∈ provisioned_files → wfs (_on_stop Ref.env Ref.installed).2 !! p = None) ∧
  (∀ q, varlib `prefix_of` q → wfs (_on_stop Ref.env Ref.installed).2 !! q = None).
Proof.
  apply (teardown_of_provisioned_host Ref.env Ref.installed ref_tools_keep_files).
  - intros p Hp. unfold provisioned_files in Hp.
    repeat (apply elem_of_cons in Hp as [->|Hp]); [..|by apply elem_of_nil in Hp].
    all: vm_compute; eexists; reflexivity.
  - vm_compute. reflexivity.
Defined.

(** ** Rendering on a provisioned host, and its failures *)

Ltac bool_facts :=
  repeat match goal with
  | H : negb _ = true |- _ => apply negb_true_iff in H
  | H : negb _ = false |- _ => apply negb_false_iff in H
  | H : bool_decide _ = true |- _ => apply bool_decide_eq_true in H
  | H : bool_decide _ = false |- _ => apply bool_decide_eq_false in H
  end.

Lemma lookup_node_sysconfig_dir f : lookup_node f sysconfig_dir = f !! sysconfig_dir.
Proof. done. Qed.
Lemma lookup_node_textfile f : lookup_node f textfile_dir = f !! textfile_dir.
Proof. done. Qed.
Lemma lookup_node_varlib f : lookup_node f varlib = f !! varlib.
Proof. done. Qed.
Lemma lookup_node_target f :
  lookup_node f (sysconfig_dir ++ ["ipmi_exporter"]) = f !! sysconfig_path.
Proof. done. Qed.
Lemma parent_target : parent (sysconfig_dir ++ ["ipmi_exporter"]) = sysconfig_dir.
Proof. vm_compute. reflexivity. Qed.

Lemma parent_sysconfig : parent sysconfig_path = sysconfig_dir.
Proof. vm_compute. reflexivity. Qed.
Lemma lookup_node_sysconfig f : lookup_node f sysconfig_path = f !! sysconfig_path.
Proof. done. Qed.

Lemma render_ready_aux E context w src :
  render_ready E w src →
  wp (_render_sysconfig E context)
     (λ r w',
        match jinja_compile E src with
        | Ok t =>
            match t context with
            | Ok text =>
                wfs w !! sysconfig_path ≠ Some Dir →
                r = Ok tt ∧ wfs w' = <[sysconfig_path := File text]> (wfs w)
            | Raise e =>
                ∀ old, wfs w !! sysconfig_path = Some (File old) →
                       r = Raise e ∧ wfs w' = delete sysconfig_path (wfs w)
            end
        | Raise e => r = Raise e ∧ wfs w' = wfs w
        end) w.
Proof.
  intros (Hsys & Htext & Hvar & Hu & Hg & Htpl).
  unfold _render_sysconfig.
  wp_run.
  all: cbn [wfs fs users groups w_host emit set_host set_owners upd_fs set_fs] in *;
       bool_facts.
  all: rewrite ?lookup_node_sysconfig_dir, ?lookup_node_textfile, ?lookup_node_varlib,
         ?lookup_node_target, ?lookup_node_snoc in *.
  all: fold (template_path E) in *.
  all: try (exfalso; naive_solver).
  all: unfold wfs in *; fold sysconfig_path in *; simplify_eq.
  all: try match goal with
       | Hc : jinja_compile _ _ = _ |- _ => rewrite Hc
       end.
  all: try (split; reflexivity).
  all: lazymatch goal with
       | |- match ?x with _ => _ end =>
           destruct x as [text|e0] eqn:Hj;
           [intros Hnd | intros old Hold]; simplify_eq
       end.
  all: repeat match goal with
       | H : py_unlink _ _ = Ok _ |- _ => apply py_unlink_ok in H; subst
       | H : py_create _ _ _ = Ok _ |- _ => apply py_create_lookup in H; subst
       end.
  all: try (split; [reflexivity|]; unfold py_append;
            rewrite lookup_insert_eq, append_nil, insert_insert_eq, ?insert_delete_eq;
            reflexivity).
  all: try (split; reflexivity).
  all: exfalso.
  all: try match goal with
       | H : py_create sysconfig_path _ _ = Raise _ |- _ =>
           rewrite py_create_in_dir in H; [discriminate H| |];
           rewrite ?parent_sysconfig, ?lookup_node_sysconfig_dir, ?lookup_node_sysconfig;
           rewrite ?lookup_delete_eq, ?lookup_delete_ne by (vm_compute; discriminate);
           done
       | H : py_unlink sysconfig_path _ = Raise _ |- _ =>
           unfold py_unlink in H; rewrite lookup_node_sysconfig in H;
           destruct (fs (w_host w) !! sysconfig_path) as [[?|]|] eqn:Hl;
           try discriminate H; try done; by destruct Heqb5
       end.
  all: naive_solver.
Qed.

(** X14. On a host that is ready for it (directories, service account
    and template in place) and with a template that renders,
    [_render_sysconfig] returns, and the only change to the file system
    is that the sysconfig file holds the rendered text. *)
Theorem render_on_ready_host E context w src text :
  render_ready E w src →
  jinja_render E src context = Ok text →
  wfs w !! sysconfig_path ≠ Some Dir →
  (_render_sysconfig E context w).1 = Ok tt ∧
  wfs (_render_sysconfig E context w).2 = <[sysconfig_path := File text]> (wfs w).
Proof.
  intros Hready Hj Hnd. pose proof (render_ready_aux E context w src Hready) as H.
  unfold wp in H. unfold jinja_render in Hj.
  destruct (jinja_compile E src) as [t|e]; [|discriminate Hj].
  rewrite Hj in H. by apply H.
Qed.

Lemma ref_installed_ready : render_ready Ref.env Ref.installed Ref.sysconfig_template.
Proof.
  repeat split; vm_compute; reflexivity.
Qed.

Lemma render_on_ready_host_witness :
  (_render_sysconfig Ref.env {[ "listen_address" := Some "127.0.0.1:9999" ]}
     Ref.installed).1 = Ok tt ∧
  wfs (_render_sysconfig Ref.env {[ "listen_address" := Some "127.0.0.1:9999" ]}
         Ref.installed).2
    = <[sysconfig_path := File "listen_address=127.0.0.1:9999"]> (wfs Ref.installed).
Proof.
  apply (render_on_ready_host Ref.env {[ "listen_address" := Some "127.0.0.1:9999" ]}
           Ref.installed Ref.sysconfig_template "listen_address=127.0.0.1:9999"
           ref_installed_ready).
  - vm_compute. reflexivity.
  - vm_compute. discriminate.
Defined.

(** X15. The old sysconfig file is deleted after the template has been
    loaded and compiled, and before it is rendered.  On a ready host with
    a sysconfig file in place: a template that does not compile makes
    [_render_sysconfig] raise with the file system untouched, so the old
    file survives; a template that compiles and then fails while it is
    rendered makes it raise with the old file deleted and nothing else
    changed. *)
Theorem old_sysconfig_on_template_failure E context w src old :
  render_ready E w src →
  wfs w !! sysconfig_path = Some (File old) →
  (∀ e, jinja_compile E src = Raise e →
        (_render_sysconfig E context w).1 = Raise e ∧
        wfs (_render_sysconfig E context w).2 = wfs w) ∧
  (∀ t e, jinja_compile E src = Ok t → t context = Raise e →
        (_render_sysconfig E context w).1 = Raise e ∧
        wfs (_render_sysconfig E context w).2 = delete sysconfig_path (wfs w)).
Proof.
  intros Hready Hold. pose proof (render_ready_aux E context w src Hready) as H.
  unfold wp in H. split.
  - intros e Hc. by rewrite Hc in H.
  - intros t e Hc Hr. rewrite Hc, Hr in H. by apply (H old).
Qed.

Lemma broken_template_ready :
  render_ready Ref.env Cases.broken_template "ARGS={{ listen_address".
Proof.
  repeat split; vm_compute; reflexivity.
Qed.

Lemma calling_template_ready :
  render_ready Ref.env Cases.calling_template "ARGS={{ port() }}".
Proof.
  repeat split; vm_compute; reflexivity.
Qed.

Lemma old_sysconfig_on_template_failure_witness :
  let context : gmap string (option string) :=
    {[ "listen_address" := Some "0.0.0.0:9290" ]} in
  ((_render_sysconfig Ref.env context Cases.broken_template).1
     = Raise TemplateSyntaxError ∧
   wfs (_render_sysconfig Ref.env context Cases.broken_template).2
     = wfs Cases.broken_template) ∧
  ((_render_sysconfig Ref.env context Cases.calling_template).1
     = Raise UndefinedError ∧
   wfs (_render_sysconfig Ref.env context Cases.calling_template).2
     = delete sysconfig_path (wfs Cases.calling_template)).
Proof.
  intros context. split.
  - apply (proj1 (old_sysconfig_on_template_failure Ref.env context
                    Cases.broken_template "ARGS={{ listen_address"
                    "listen_address=0.0.0.0:9290" broken_template_ready
                    ltac:(vm_compute; reflexivity))).
    vm_compute. reflexivity.
  - apply (proj2 (old_sysconfig_on_template_failure Ref.env context
                    Cases.calling_template "ARGS={{ port() }}"
                    "listen_address=0.0.0.0:9290" calling_template_ready
                    ltac:(vm_compute; reflexivity))
             (Ref.render_pieces [Ref.Lit "A"; Ref.Lit "R"; Ref.Lit "G"; Ref.Lit "S";
                                 Ref.Lit "="; Ref.Var "port()"])).
    + vm_compute. reflexivity.
    + vm_compute. reflexivity.
Defined.

Lemma py_mkdir_parents_from_lookup rest base f f' q :
  py_mkdir_parents_from base rest f = Ok f' →
  (∀ c, List.head rest = Some c → ¬ (base ++ [c]) `prefix_of` q) →
  f' !! q = f !! q.
Proof.
  revert base f. induction rest as [|c rest IH]; intros base f H Hq; simpl in H; [done|].
  assert (base ++ [c] ≠ q) as Hne by (intros <-; by apply (Hq c)).
  assert (∀ c', List.head rest = Some c' → ¬ ((base ++ [c]) ++ [c']) `prefix_of` q) as Hq'.
  { intros c' _ Hp. apply (Hq c); [done|]. etrans; [|exact Hp]. by apply prefix_app_r. }
  repeat case_match; simplify_eq;
    rewrite ?(IH _ _ H Hq'); rewrite ?lookup_insert_ne by done; done.
Qed.

Lemma render_needs_account_aux E context w :
  "ipmi_exporter" ∉ users (w_host w) →
  wp (_render_sysconfig E context)
     (λ r w', (∃ e, r = Raise e) ∧ wfs w' !! sysconfig_path = wfs w !! sysconfig_path) w.
Proof.
  intros Hu. unfold _render_sysconfig.
  wp_run.
  all: cbn [wfs fs users groups w_host emit set_host set_owners upd_fs set_fs] in *;
       bool_facts.
  all: try (exfalso; done).
  all: repeat match goal with
       | H : py_mkdir _ _ = Ok _ |- _ => apply py_mkdir_lookup in H; subst
       end.
  all: split; [by eexists|].
  all: try reflexivity.
  all: try (erewrite py_mkdir_parents_from_lookup; [| eassumption |];
            [| intros c [= <-] [k Hk]; vm_compute in Hk; discriminate Hk ]).
  all: rewrite ?lookup_insert_ne by (vm_compute; discriminate); reflexivity.
Qed.

(** X16. [_render_sysconfig] needs the service account: when the user
    [ipmi_exporter] does not exist it raises (at the change of owner, if
    not before) and the sysconfig file is left exactly as it was. *)
Theorem render_needs_account E context w :
  "ipmi_exporter" ∉ users (w_host w) →
  (∃ e, (_render_sysconfig E context w).1 = Raise e) ∧
  wfs (_render_sysconfig E context w).2 !! sysconfig_path = wfs w !! sysconfig_path.
Proof. apply render_needs_account_aux. Qed.

Lemma render_needs_account_witness :
  (_render_sysconfig Ref.env {[ "listen_address" := Some "127.0.0.1:9999" ]}
     Cases.no_account).1 = Raise LookupError ∧
  wfs (_render_sysconfig Ref.env {[ "listen_address" := Some "127.0.0.1:9999" ]}
         Cases.no_account).2 !! sysconfig_path
    = Some (File "listen_address=0.0.0.0:9290").
Proof.
  split; [vm_compute; reflexivity|].
  rewrite (proj2 (render_needs_account Ref.env
                    {[ "listen_address" := Some "127.0.0.1:9999" ]} Cases.no_account
                    ltac:(vm_compute; set_solver))).
  vm_compute. reflexivity.
Defined.

(** ** The grant file, the configuration file and the binary *)

(** X17. Writing the grant file is idempotent: after a call of
    [_create_sudoers_file_for_ipmi_exporter] that returned, a second call
    returns as well and leaves the file system as the first one left it. *)
Theorem sudoers_write_idempotent (w : world) :
  let f := _create_sudoers_file_for_ipmi_exporter in
  (f w).1 = Ok tt →
  (f (f w).2).1 = Ok tt ∧ wfs (f (f w).2).2 = wfs (f w).2.
Proof.
  intros f. unfold f, _create_sudoers_file_for_ipmi_exporter.
  rewrite create_and_write.
  destruct (py_create sudoers EmptyString (wfs w)) as [g|e] eqn:Hc; [|done].
  intros _. simpl. rewrite create_and_write. rewrite wfs_upd_fs.
  apply py_create_lookup in Hc as Hg. subst g.
  assert (lookup_node (wfs w) (parent sudoers) = Some Dir) as Hdir.
  { unfold py_create in Hc. repeat case_match; by simplify_eq. }
  rewrite py_create_in_dir.
  - simpl. split; [done|]. rewrite wfs_upd_fs. by rewrite !insert_insert_eq.
  - change (lookup_node ?g (parent sudoers)) with (g !! parent sudoers) in *.
    rewrite !lookup_insert_ne by (vm_compute; discriminate). exact Hdir.
  - change (lookup_node ?g sudoers) with (g !! sudoers).
    by rewrite lookup_insert_eq.
Qed.

Lemma sudoers_write_idempotent_witness :
  let f := _create_sudoers_file_for_ipmi_exporter in
  (f (f Ref.fresh).2).1 = Ok tt ∧ wfs (f (f Ref.fresh).2).2 = wfs (f Ref.fresh).2.
Proof. exact (sudoers_write_idempotent Ref.fresh create_sudoers_fresh). Defined.

(** X18. Without the directory [/etc/sudoers.d] the grant file cannot be
    written: [_create_sudoers_file_for_ipmi_exporter] raises and the file
    system is unchanged. *)
Theorem sudoers_needs_directory (w : world) :
  lookup_node (wfs w) (parent sudoers) ≠ Some Dir →
  (∃ e, (_create_sudoers_file_for_ipmi_exporter w).1 = Raise e) ∧
  wfs (_create_sudoers_file_for_ipmi_exporter w).2 = wfs w.
Proof.
  intros Hdir. unfold _create_sudoers_file_for_ipmi_exporter.
  rewrite create_and_write.
  destruct (py_create sudoers EmptyString (wfs w)) as [g|e] eqn:Hc.
  - exfalso. apply Hdir. unfold py_create in Hc. repeat case_match; by simplify_eq.
  - split; [by eexists | done].
Qed.

Lemma sudoers_needs_directory_witness :
  let w := upd_fs (delete (parent sudoers)) Ref.fresh in
  (∃ e, (_create_sudoers_file_for_ipmi_exporter w).1 = Raise e) ∧
  wfs (_create_sudoers_file_for_ipmi_exporter w).2 = wfs w.
Proof.
  apply (sudoers_needs_directory (upd_fs (delete (parent sudoers)) Ref.fresh)).
  vm_compute. discriminate.
Defined.

Lemma path_config_joined :
  Path ("/etc/ipmi_exporter/" +:+ "ipmi_exporter.yaml") = config_path.
Proof. vm_compute. reflexivity. Qed.

Lemma config_dir_parent : parent config_path = config_dir.
Proof. vm_compute. reflexivity. Qed.

Lemma lookup_node_config_dir f : lookup_node f config_dir = f !! config_dir.
Proof. done. Qed.

Lemma configuration_aux E w :
  wp (_create_ipmi_exporter_configuration E)
     (λ r w', r = Ok tt →
        ∃ c, wfs w !! config_template E = Some (File c) ∧
             wfs w' !! config_path = Some (File c) ∧
             wfs w' !! config_dir = Some Dir) w.
Proof.
  unfold _create_ipmi_exporter_configuration. rewrite path_config_joined.
  wp_run; try (intros ?; discriminate).
  all: intros _; norm_fs.
  all: rewrite lookup_node_snoc in *; fold (config_template E) in *.
  all: match goal with
       | H : _ !! config_template _ = Some (File ?c) |- _ => exists c
       end.
  all: match goal with
       | H : py_create ?p _ ?F = Ok _ |- _ =>
           assert (F !! config_dir = Some Dir) as Hparent
             by (unfold py_create in H; rewrite config_dir_parent in H;
                 rewrite lookup_node_config_dir in H;
                 repeat case_match; by simplify_eq);
           apply py_create_lookup in H; subst
       end.
  all: repeat match goal with
       | H : py_mkdir _ _ = Ok _ |- _ => apply py_mkdir_lookup in H; subst
       end.
  all: split; [|split].
  all: try (apply lookup_insert_eq).
  all: try (rewrite lookup_insert_ne by (vm_compute; discriminate); exact Hparent).
  all: try done.
  all: eapply keeps_files_insert_dir; eassumption.
Qed.

(** X19. When [_create_ipmi_exporter_configuration] returns, the file
    [/etc/ipmi_exporter/ipmi_exporter.yaml] is a copy of the configuration
    shipped with the charm, inside a directory [/etc/ipmi_exporter]. *)
Theorem configuration_copies_template E w :
  (_create_ipmi_exporter_configuration E w).1 = Ok tt →
  ∃ c, wfs w !! config_template E = Some (File c) ∧
       wfs (_create_ipmi_exporter_configuration E w).2 !! config_path = Some (File c) ∧
       wfs (_create_ipmi_exporter_configuration E w).2 !! config_dir = Some Dir.
Proof. apply (configuration_aux E w). Qed.

Lemma configuration_copies_template_witness :
  ∃ c, wfs Ref.fresh !! config_template Ref.env = Some (File c) ∧
       wfs (_create_ipmi_exporter_configuration Ref.env Ref.fresh).2 !! config_path
         = Some (File c) ∧
       wfs (_create_ipmi_exporter_configuration Ref.env Ref.fresh).2 !! config_dir
         = Some Dir.
Proof.
  apply (configuration_copies_template Ref.env Ref.fresh). vm_compute. reflexivity.
Defined.

(** ** The download and the binary *)

(** X20. When the release cannot be fetched, [_install_ipmi_exporter]
    raises [URLError] after the one download attempt: nothing on the host
    is touched and no later step is tried. *)
Theorem download_failure_leaves_host E version arch listen_address w :
  urlopen E (download_url version arch) = DlError →
  let r := _install_ipmi_exporter E version arch listen_address w in
  r.1 = Raise URLError ∧
  w_host r.2 = w_host w ∧
  new_events w r.2 = [EvUrlretrieve (download_url version arch) archive_path].
Proof.
  intros Hurl.
  change (wp (_install_ipmi_exporter E version arch listen_address)
    (λ r w', r = Raise URLError ∧ w_host w' = w_host w ∧
             new_events w w' = [EvUrlretrieve (download_url version arch) archive_path]) w).
  unfold _install_ipmi_exporter, install_binary, urlretrieve.
  apply wp_bind, wp_bind, wp_bind, wp_log. cbn beta iota. rewrite Hurl.
  apply wp_raise. split; [done|]. split; [done|]. by apply new_events_app.
Qed.

Lemma download_failure_leaves_host_witness :
  let r := _install_ipmi_exporter Ref.env "9.9.9" "amd64" "0.0.0.0:9290" Ref.fresh in
  r.1 = Raise URLError ∧
  w_host r.2 = w_host Ref.fresh ∧
  new_events Ref.fresh r.2 = [EvUrlretrieve (download_url "9.9.9" "amd64") archive_path].
Proof.
  apply (download_failure_leaves_host Ref.env "9.9.9" "amd64" "0.0.0.0:9290" Ref.fresh).
  vm_compute. reflexivity.
Defined.

Lemma scratch_not_bin n :
  ¬ (tmp_root ++ ["charmtmp" +:+ n]) `prefix_of` bin_path.
Proof. intros [k Hk]. vm_compute in Hk. discriminate. Qed.

Lemma lookup_node_bin f : lookup_node f bin_path = f !! bin_path.
Proof. done. Qed.

Lemma binary_installed_aux E version arch w :
  wfs w !! bin_path ≠ Some Dir →
  wp (install_binary E version arch)
     (λ r w', r = Ok tt →
        (∃ c, wfs w' !! bin_path = Some (File c)) ∧
        wfs w' !! archive_path = None) w.
Proof.
  intros Hbin. unfold install_binary.
  wp_run; try (intros ?; discriminate).
  all: intros _; norm_fs.
  all: repeat match goal with
       | H : List.find _ _ = Some _ |- _ => apply mkdtemp_name in H as [[? ->] ?]
       | H : py_unlink _ _ = Ok _ |- _ =>
           unfold py_unlink in H; repeat case_match; simplify_eq
       end.
  all: norm_fs.
  all: repeat match goal with
       | H : py_create _ _ _ = Ok _ |- _ => apply py_create_lookup in H; subst
       | H : py_mkdir _ _ = Ok _ |- _ => apply py_mkdir_lookup in H; subst
       end.
  all: norm_fs.
  all: try (split; [|by apply lookup_delete_eq]).
  all: rewrite ?lookup_node_bin in *.
  all: try (rewrite lookup_delete_ne by (vm_compute; discriminate);
            rewrite remove_tree_lookup_ne by apply scratch_not_bin;
            eexists; apply lookup_insert_eq).
  all: exfalso; apply Hbin.
  all: match goal with
       | H : bool_decide (foldl _ _ _ !! bin_path = Some Dir) = true |- _ =>
           apply bool_decide_eq_true in H;
           rewrite extractall_lookup_ne in H by apply scratch_not_bin;
           rewrite !lookup_insert_ne in H by (vm_compute; discriminate);
           exact H
       end.
Qed.

(** X21. When the download-and-extract part returns, a file is in place at
    [/usr/bin/ipmi_exporter] (provided that path was not a directory
    before) and the downloaded archive is gone from [/tmp]. *)
Theorem binary_installed E version arch w :
  wfs w !! bin_path ≠ Some Dir →
  (install_binary E version arch w).1 = Ok tt →
  (∃ c, wfs (install_binary E version arch w).2 !! bin_path = Some (File c)) ∧
  wfs (install_binary E version arch w).2 !! archive_path = None.
Proof. intros Hbin. apply (binary_installed_aux E version arch w Hbin). Qed.

Lemma binary_installed_witness :
  (∃ c, wfs (install_binary Ref.env "1.9.1" "amd64" Ref.fresh).2 !! bin_path
          = Some (File c)) ∧
  wfs (install_binary Ref.env "1.9.1" "amd64" Ref.fresh).2 !! archive_path = None.
Proof.
  apply (binary_installed Ref.env "1.9.1" "amd64" Ref.fresh).
  - vm_compute. discriminate.
  - vm_compute. reflexivity.
Defined.
